(** * XML transaction export to spreadsheet: the transform core of [app.py]

    A shallow embedding of [parse_xml_to_excel] and of the parts of
    [xml.etree.ElementTree], [openpyxl] and [io.BytesIO] it calls, followed
    by the properties of the transform.

    Conventions.
    - A Python [str] is a [string]; [len] is [String.length].
    - A value that is [None] or a [str] is a [value].
    - Statements that may raise run in the [result] monad; [try]/[except]
      is a [match] on the outcome.
    - The XML parser and the workbook serializer are library code: the
      development is parametric in both (Section [Converter]). The input
      of the model is whatever [ET.parse] makes of the uploaded file: a
      tree, a [ParseError], or another exception.
    - A worksheet is the map from (row, column) to the cells created so
      far, as the program drives it through [ws.cell], [ws.columns] and
      [ws.column_dimensions]. A row above 1048576 is refused, a [str]
      assigned to a cell is cut to 32767 characters, and one that holds
      a control character is refused, as openpyxl does.
    - [main] is one run of the page: what the widgets hold and what the
      clock says are its inputs, the elements it renders, in order, are
      its output. *)

From Stdlib Require Import Ascii.
From stdpp Require Import gmap strings list fin_maps pretty.

#[local] Set Warnings "-register-all,-abstract-large-number".

(** ** Python values *)

Inductive value : Type :=
| PyNone
| PyStr (s : string).

Global Instance value_eq_dec : EqDecision value.
Proof. solve_decision. Defined.

(** [str(v)] *)
Definition py_str (v : value) : string :=
  match v with
  | PyNone => "None"
  | PyStr s => s
  end.

(** ** Exceptions and the [result] monad *)

Inductive exn : Type :=
| ParseError (msg : string)          (* xml.etree.ElementTree.ParseError *)
| KeyError (key : string)
| TypeError (msg : string)
| ValueError (msg : string)
| IndexError (msg : string)
| LookupError (msg : string)
| IllegalCharacterError (msg : string)   (* openpyxl.utils.exceptions *)
| OtherException (msg : string).     (* any other subclass of Exception *)

(** [str(e)]; a [KeyError] prints the [repr] of its key. *)
Definition exn_str (e : exn) : string :=
  match e with
  | ParseError msg => msg
  | KeyError key => "'" +:+ key +:+ "'"
  | TypeError msg => msg
  | ValueError msg => msg
  | IndexError msg => msg
  | LookupError msg => msg
  | IllegalCharacterError msg => msg
  | OtherException msg => msg
  end.

Inductive result (A : Type) : Type :=
| Ok (a : A)
| Raise (e : exn).
Arguments Ok {A} a.
Arguments Raise {A} e.

Global Instance result_ret : MRet result := λ A a, Ok a.
Global Instance result_bind : MBind result := λ A B f m,
  match m with
  | Ok a => f a
  | Raise e => Raise e
  end.

(** A [for] loop whose body may raise: the state is threaded left to right
    and the first exception leaves the loop. *)
Fixpoint for_each {S X : Type} (body : S → X → result S) (xs : list X) (s : S)
  : result S :=
  match xs with
  | [] => Ok s
  | x :: xs' => s' ← body s x; for_each body xs' s'
  end.

(** [enumerate(xs, start)] *)
Fixpoint enumerate {X : Type} (xs : list X) (start : nat) : list (nat * X) :=
  match xs with
  | [] => []
  | x :: xs' => (start, x) :: enumerate xs' (S start)
  end.

(** [len(v)]: a [str] has a length, [None] has none. *)
Definition py_len (v : value) : result nat :=
  match v with
  | PyStr s => Ok (String.length s)
  | PyNone => Raise (TypeError "object of type 'NoneType' has no len()")
  end.

(** ** ElementTree *)

(** An element: its tag, its [.text] ([None] when the element has no
    character data before its first child or its end tag) and its child
    elements in document order. *)
Inductive Element : Type :=
  Node { tag : string; text : value; children : list Element }.

(** [elem.findall(name)] for a plain tag name: the direct children of [elem]
    carrying that tag, in document order. *)
Definition findall (name : string) (elem : Element) : list Element :=
  filter (λ e, tag e = name) (children elem).

(** [elem.find(name)] for a plain tag name: the first such child, or [None]. *)
Definition find (name : string) (elem : Element) : option Element :=
  head (findall name elem).

(** ** The extractor (lines 69-119) *)

(** A record is a [dict] literal: its items in insertion order. *)
Abbreviation record := (list (string * value)).

(** [d[key]] *)
Fixpoint dict_get (d : record) (key : string) : result value :=
  match d with
  | [] => Raise (KeyError key)
  | (k, v) :: d' => if decide (k = key) then Ok v else dict_get d' key
  end.

(** [transaction.find(name).text if transaction.find(name) is not None else ''] *)
Definition field_text (transaction : Element) (name : string) : value :=
  match find name transaction with
  | Some e => text e
  | None => PyStr ""
  end.

(** The body of the extraction loop: one record per [Transaction]. *)
Definition make_record (transaction : Element) : record :=
  let transType := field_text transaction "TransType" in
  let date := field_text transaction "Date" in
  let time := field_text transaction "Time" in
  let lastName := field_text transaction "LastName" in
  let firstName := field_text transaction "FirstName" in
  let middleName := field_text transaction "MiddleName" in
  let patronBarcode := field_text transaction "PatronBarcode" in
  let districtID := field_text transaction "DistrictID" in
  let patronType := field_text transaction "PatronType" in
  let patronGradeLevel := field_text transaction "PatronGradeLevel" in
  let patronHomeroom := field_text transaction "PatronHomeroom" in
  let title := field_text transaction "Title" in
  let isbn := field_text transaction "ISBN" in
  let bibType := field_text transaction "BibType" in
  let pubYear := field_text transaction "PubYear" in
  let copyBarcode := field_text transaction "CopyBarcode" in
  let callNumber := field_text transaction "CallNumber" in
  let circType := field_text transaction "CircType" in
  let originatorUsername := field_text transaction "OriginatorUsername" in
  [ ("Transaction Type", transType);
    ("Date", date);
    ("Time", time);
    ("Last Name", lastName);
    ("First Name", firstName);
    ("Middle Name", middleName);
    ("Patron Barcode", patronBarcode);
    ("District ID", districtID);
    ("Patron Type", patronType);
    ("Grade Level", patronGradeLevel);
    ("Homeroom", patronHomeroom);
    ("Title", title);
    ("ISBN", isbn);
    ("Material Type", bibType);
    ("Publication Year", pubYear);
    ("Copy Barcode", copyBarcode);
    ("Call Number", callNumber);
    ("Circulation Type", circType);
    ("Originator Username", originatorUsername) ].

(** [data_rows = []; for transaction in root.findall('Transaction'):
    data_rows.append({...})] *)
Definition extract_rows (root : Element) : list record :=
  foldl (λ data_rows transaction, data_rows ++ [make_record transaction])
        [] (findall "Transaction" root).

(** The 19 source tags, in the order of the record's fields. *)
Definition field_tags : list string :=
  [ "TransType"; "Date"; "Time"; "LastName"; "FirstName"; "MiddleName";
    "PatronBarcode"; "DistrictID"; "PatronType"; "PatronGradeLevel";
    "PatronHomeroom"; "Title"; "ISBN"; "BibType"; "PubYear"; "CopyBarcode";
    "CallNumber"; "CircType"; "OriginatorUsername" ].

(** [headers] (lines 130-133) *)
Definition headers : list string :=
  [ "Transaction Type"; "Date"; "Time"; "Last Name"; "First Name"; "Middle Name";
    "Patron Barcode"; "District ID"; "Patron Type"; "Grade Level"; "Homeroom";
    "Title"; "ISBN"; "Material Type"; "Publication Year"; "Copy Barcode";
    "Call Number"; "Circulation Type"; "Originator Username" ].

(** ** openpyxl: cells, worksheets, workbooks *)

Record Font : Type := { bold : bool; color : string }.

Record PatternFill : Type :=
  { start_color : string; end_color : string; fill_type : string }.

(** A cell knows its coordinates; [font] and [fill] are [None] until the
    program assigns them. *)
Record Cell : Type :=
  { row : nat; column : nat; cell_value : value;
    font : option Font; fill : option PatternFill }.

Definition empty_cell (r c : nat) : Cell :=
  {| row := r; column := c; cell_value := PyNone; font := None; fill := None |}.

Definition set_value (v : value) (cell : Cell) : Cell :=
  {| row := row cell; column := column cell; cell_value := v;
     font := font cell; fill := fill cell |}.

Definition set_font (f : Font) (cell : Cell) : Cell :=
  {| row := row cell; column := column cell; cell_value := cell_value cell;
     font := Some f; fill := fill cell |}.

Definition set_fill (p : PatternFill) (cell : Cell) : Cell :=
  {| row := row cell; column := column cell; cell_value := cell_value cell;
     font := font cell; fill := Some p |}.

(** [get_column_letter]: bijective base 26, at most three letters. *)
Definition chr_upper (remainder : nat) : string :=
  String (Ascii.ascii_of_nat (remainder + 64)) EmptyString.

Fixpoint column_letters (fuel col_idx : nat) (letters : string) : string :=
  match fuel with
  | 0 => letters
  | S fuel' =>
      if decide (0 < col_idx) then
        let remainder := col_idx `mod` 26 in
        let col_idx := col_idx `div` 26 in
        if decide (remainder = 0)
        then column_letters fuel' (col_idx - 1) (chr_upper 26 +:+ letters)
        else column_letters fuel' col_idx (chr_upper remainder +:+ letters)
      else letters
  end.

Definition get_column_letter (col_idx : nat) : result string :=
  if decide (1 ≤ col_idx ≤ 18278) then Ok (column_letters 3 col_idx "")
  else Raise (ValueError ("Invalid column index " +:+ pretty col_idx)).

(** [cell.column_letter] *)
Definition column_letter (cell : Cell) : result string :=
  get_column_letter (column cell).

(** A worksheet: its title, the cells created so far keyed by (row, column),
    and the widths assigned so far keyed by column letter. *)
Record Worksheet : Type :=
  { title : string;
    cells : gmap (nat * nat) Cell;
    column_dimensions : gmap string nat }.

Definition set_title (t : string) (ws : Worksheet) : Worksheet :=
  {| title := t; cells := cells ws; column_dimensions := column_dimensions ws |}.

(** Cells are shared objects: assigning to an attribute of a cell obtained
    from the sheet changes the sheet. [put_cell] writes the cell back at its
    own coordinates. *)
Definition put_cell (cell : Cell) (ws : Worksheet) : Worksheet :=
  {| title := title ws;
     cells := <[(row cell, column cell) := cell]> (cells ws);
     column_dimensions := column_dimensions ws |}.

(** [ws.column_dimensions[letter].width = w] *)
Definition set_width (letter : string) (w : nat) (ws : Worksheet) : Worksheet :=
  {| title := title ws; cells := cells ws;
     column_dimensions := <[letter := w]> (column_dimensions ws) |}.

(** The cell at (r, c), as created on first access. *)
Definition get_cell (ws : Worksheet) (r c : nat) : Cell :=
  default (empty_cell r c) (cells ws !! (r, c)).

(** The last row of a sheet, 1048576, and the longest string a cell
    keeps. *)
Definition MAX_ROW : nat := 1024 * 1024.

Definition MAX_STRING : nat := 32767.

(** The characters [ILLEGAL_CHARACTERS_RE] matches: the control characters
    other than tab, line feed and carriage return. *)
Definition illegal_character (a : ascii) : bool :=
  let n := nat_of_ascii a in
  (n <=? 8) || ((11 <=? n) && (n <=? 12)) || ((14 <=? n) && (n <=? 31)).

(** [Cell.check_string]: the string is cut to its first 32767 characters,
    and what is left must hold no illegal character. *)
Definition check_string (s : string) : result string :=
  let value := String.substring 0 MAX_STRING s in
  if existsb illegal_character (String.list_ascii_of_string value)
  then Raise (IllegalCharacterError
                (value +:+ " cannot be used in worksheets."))
  else Ok value.

(** [Worksheet._get_cell]: rows run from 1 to 1048576. *)
Definition Worksheet_get_cell (ws : Worksheet) (r c : nat) : result Cell :=
  if decide (0 < r < MAX_ROW + 1) then Ok (get_cell ws r c)
  else Raise (ValueError
                ("Row numbers must be between 1 and 1048576. "
                 +:+ "Row number supplied was " +:+ pretty r)).

(** [ws.cell(row=r, column=c, value=v)]: the cell is created if needed, and
    [v] is stored, after [check_string], unless it is [None]. Returns the
    sheet and the cell. *)
Definition ws_cell (ws : Worksheet) (r c : nat) (v : value)
  : result (Worksheet * Cell) :=
  if decide (r < 1 ∨ c < 1)
  then Raise (ValueError "Row or column values must be at least 1")
  else
    cell ← Worksheet_get_cell ws r c;
    match v with
    | PyNone => Ok (put_cell cell ws, cell)
    | PyStr s =>
        s ← check_string s;
        let cell := set_value (PyStr s) cell in
        Ok (put_cell cell ws, cell)
    end.

(** [ws.max_row], [ws.max_column]: 1 on a sheet without cells. *)
Definition max_row (ws : Worksheet) : nat :=
  if decide (cells ws = ∅) then 1
  else max_list ((map_to_list (cells ws)).*1.*1).

Definition max_column (ws : Worksheet) : nat :=
  if decide (cells ws = ∅) then 1
  else max_list ((map_to_list (cells ws)).*1.*2).

(** [ws.columns]: for each column 1..max_column, the cells of rows
    1..max_row, top to bottom; nothing on a sheet without cells. *)
Definition columns (ws : Worksheet) : list (list Cell) :=
  if decide (cells ws = ∅) then []
  else (λ c, (λ r, get_cell ws r c) <$> seq 1 (max_row ws))
         <$> seq 1 (max_column ws).

Record Workbook : Type := { active : Worksheet }.

(** [openpyxl.Workbook()] *)
Definition new_Workbook : Workbook :=
  {| active := {| title := "Sheet"; cells := ∅; column_dimensions := ∅ |} |}.

(** ** io.BytesIO *)

Record BytesIO : Type := { getvalue : list Byte.byte; tell : nat }.

Definition new_BytesIO : BytesIO := {| getvalue := []; tell := 0 |}.

(** [buf.write(data)]: overwrite at the position, extending the buffer. *)
Definition BytesIO_write (data : list Byte.byte) (buf : BytesIO) : BytesIO :=
  {| getvalue := take (tell buf) (getvalue buf) ++ data
                 ++ drop (tell buf + length data) (getvalue buf);
     tell := tell buf + length data |}.

(** [buf.seek(pos)] *)
Definition BytesIO_seek (pos : nat) (buf : BytesIO) : BytesIO :=
  {| getvalue := getvalue buf; tell := pos |}.

(** ** The table writer (lines 124-156) *)

(** Lines 135-138: one styled header cell. *)
Definition write_header (ws : Worksheet) (item : nat * string)
  : result Worksheet :=
  let '(col_num, header) := item in
  '(ws, cell) ← ws_cell ws 1 col_num (PyStr header);
  let cell := set_font {| bold := true; color := "FFFFFF" |} cell in
  let ws := put_cell cell ws in
  let cell :=
    set_fill {| start_color := "4472C4"; end_color := "4472C4";
                fill_type := "solid" |} cell in
  let ws := put_cell cell ws in
  Ok ws.

(** Lines 142-143: the cells of one data row. *)
Definition write_row (ws : Worksheet) (item : nat * record) : result Worksheet :=
  let '(row_num, data) := item in
  for_each
    (λ ws '(col_num, header),
       v ← dict_get data header;
       '(ws, _) ← ws_cell ws row_num col_num v;
       Ok ws)
    (enumerate headers 1) ws.

(** Lines 150-154: one cell of the width scan. The comparison measures
    [str(cell.value)], the assignment measures [cell.value] itself; an
    exception in either is swallowed and leaves [max_length] as it was. *)
Definition scan_cell (max_length : nat) (cell : Cell) : nat :=
  let attempt : result nat :=
    if decide (max_length < String.length (py_str (cell_value cell)))
    then py_len (cell_value cell)
    else Ok max_length in
  match attempt with
  | Ok n => n
  | Raise _ => max_length
  end.

(** Lines 147-156: the width of one column. *)
Definition autosize_column (ws : Worksheet) (column : list Cell)
  : result Worksheet :=
  let max_length := 0 in
  cell0 ← match column with
          | [] => Raise (IndexError "tuple index out of range")
          | cell0 :: _ => Ok cell0
          end;
  column_letter ← column_letter cell0;
  let max_length := foldl scan_cell max_length column in
  let adjusted_width := (max_length + 2) `min` 50 in
  Ok (set_width column_letter adjusted_width ws).

(** Lines 125-156: the workbook for a batch. *)
Definition build_workbook (data_rows : list record) : result Workbook :=
  let wb := new_Workbook in
  let ws := active wb in
  let ws := set_title "Transactions" ws in
  ws ← for_each write_header (enumerate headers 1) ws;
  ws ← for_each write_row (enumerate data_rows 2) ws;
  ws ← for_each autosize_column (columns ws) ws;
  Ok {| active := ws |}.

(** ** [parse_xml_to_excel] *)

Record ElementTree : Type := { getroot : Element }.

(** The triple handed back to the caller: buffer or [None], message, count. *)
Definition status : Type := option BytesIO * string * nat.

(** ** Reference values used in the statements below *)

(** The header cell of column [c], as lines 136-138 leave it. *)
Definition header_cell (c : nat) (h : string) : Cell :=
  {| row := 1; column := c; cell_value := PyStr h;
     font := Some {| bold := true; color := "FFFFFF" |};
     fill := Some {| start_color := "4472C4"; end_color := "4472C4";
                     fill_type := "solid" |} |}.

(** An unstyled cell holding [v]. *)
Definition data_cell (r c : nat) (v : value) : Cell :=
  {| row := r; column := c; cell_value := v; font := None; fill := None |}.

(** The sheet [ws] with [cell] stored at (r, c). *)
Definition with_cell (r c : nat) (cell : Cell) (ws : Worksheet) : Worksheet :=
  {| title := title ws;
     cells := <[(r, c) := cell]> (cells ws);
     column_dimensions := column_dimensions ws |}.

(** The value a record holds under a key ([None] when the key is missing). *)
Definition dict_value (data : record) (key : string) : value :=
  match dict_get data key with
  | Ok v => v
  | Raise _ => PyNone
  end.

(** A record that has every header as a key. *)
Definition complete (data : record) : Prop :=
  ∀ h, h ∈ headers → ∃ v, dict_get data h = Ok v.

(** What a cell keeps of a value: a [str] cut to its first 32767
    characters, [None] as it is. *)
Definition stored (v : value) : value :=
  match v with
  | PyNone => PyNone
  | PyStr s => PyStr (String.substring 0 MAX_STRING s)
  end.

(** The cell expected at (r, c) for a batch: headers in row 1, record [i]
    in row [i + 2], field [j] in column [j + 1]. *)
Definition grid (batch : list record) (r c : nat) : option Cell :=
  match r, c with
  | 0, _ | _, 0 => None
  | 1, S j => header_cell c <$> headers !! j
  | S (S i), S j =>
      data ← batch !! i; h ← headers !! j;
      Some (data_cell r c (stored (dict_value data h)))
  end.

(** The characters XML 1.0 allows in a document, among the first 256:
    tab, line feed, carriage return and everything from the space on. *)
Definition xml_char (a : ascii) : bool :=
  let n := nat_of_ascii a in
  (n =? 9) || (n =? 10) || (n =? 13) || (32 <=? n).

Definition xml_string (s : string) : bool :=
  forallb xml_char (String.list_ascii_of_string s).

Definition xml_value (v : value) : bool :=
  match v with
  | PyNone => true
  | PyStr s => xml_string s
  end.

(** A tree as the parser builds it from a well-formed document: the
    text of every element holds XML characters only. *)
Fixpoint xml_characters (e : Element) : bool :=
  match e with
  | Node _ tx cs =>
      xml_value tx
      && (fix all (l : list Element) : bool :=
            match l with
            | [] => true
            | c :: l' => xml_characters c && all l'
            end) cs
  end.

(** A record whose values hold XML characters only. *)
Definition xml_record (data : record) : Prop :=
  ∀ item, item ∈ data → xml_value item.2 = true.

(** Length of the stringified value of a cell. *)
Definition str_len (cell : Cell) : nat :=
  String.length (py_str (cell_value cell)).

(** The longest stringified value of a column. *)
Definition maxLen (column : list Cell) : nat := max_list_with str_len column.

(** The width lines 147-155 compute for a column. *)
Definition col_width (column : list Cell) : nat :=
  (foldl scan_cell 0 column + 2) `min` 50.

(** One step of the width loop, on the map of widths. *)
Definition assign_width (d : gmap string nat) (p : string * list Cell)
  : gmap string nat :=
  <[p.1 := col_width p.2]> d.

(** The letters of the 19 columns. *)
Definition letters : list string :=
  [ "A"; "B"; "C"; "D"; "E"; "F"; "G"; "H"; "I"; "J"; "K"; "L"; "M"; "N";
    "O"; "P"; "Q"; "R"; "S" ].

(** The four shapes of the status triple. *)
Inductive status_kind : Type := Success | NoData | InvalidXML | ProcessingError.

Definition has_kind (r : status) (k : status_kind) : Prop :=
  match k with
  | Success => ∃ buf n, r = (Some buf, "Success", n)
  | NoData => r = (None, "No transaction data found in XML file", 0)
  | InvalidXML => ∃ detail, r = (None, "Invalid XML file: " +:+ detail, 0)
  | ProcessingError =>
      ∃ detail, r = (None, "Error processing file: " +:+ detail, 0)
  end.

(** ** Sample documents *)

Definition leaf (name s : string) : Element := Node name (PyStr s) [].

(** The children of the round-trip scenario's [Transaction]. *)
Definition scenario_fields : list Element :=
  [ leaf "TransType" "Checkout"; leaf "Date" "2024-01-15"; leaf "Time" "10:30";
    leaf "LastName" "Smith"; leaf "FirstName" "Jane";
    leaf "Title" "Sample Book"; leaf "ISBN" "1234567890" ].

(** The record the scenario expects. *)
Definition scenario_record : record :=
  [ ("Transaction Type", PyStr "Checkout");
    ("Date", PyStr "2024-01-15");
    ("Time", PyStr "10:30");
    ("Last Name", PyStr "Smith");
    ("First Name", PyStr "Jane");
    ("Middle Name", PyStr "");
    ("Patron Barcode", PyStr "");
    ("District ID", PyStr "");
    ("Patron Type", PyStr "");
    ("Grade Level", PyStr "");
    ("Homeroom", PyStr "");
    ("Title", PyStr "Sample Book");
    ("ISBN", PyStr "1234567890");
    ("Material Type", PyStr "");
    ("Publication Year", PyStr "");
    ("Copy Barcode", PyStr "");
    ("Call Number", PyStr "");
    ("Circulation Type", PyStr "");
    ("Originator Username", PyStr "") ].

(** [<Transaction><Title/></Transaction>]: the field is there, its text is not. *)
Definition empty_title : Element :=
  Node "Transaction" PyNone [Node "Title" PyNone []].

(** [<Transaction/>]: no field at all. *)
Definition bare_transaction : Element := Node "Transaction" PyNone [].

(** Two top-level transactions and one nested under another element. *)
Definition sample_root : Element :=
  Node "Transactions" PyNone
    [ Node "Transaction" PyNone scenario_fields;
      Node "Archive" PyNone [Node "Transaction" PyNone scenario_fields];
      empty_title ].

(** A root without transactions of its own. *)
Definition archive_root : Element :=
  Node "Transactions" PyNone
    [ Node "Archive" PyNone [Node "Transaction" PyNone scenario_fields] ].

(** A parser already run: the file is the outcome of [ET.parse]. *)
Definition sample_parse (xml_file : result ElementTree) : result ElementTree :=
  xml_file.

(** A serializer that writes the sheet title. *)
Definition sample_save (wb : Workbook) : list Byte.byte :=
  String.list_byte_of_string (title (active wb)).

Definition sample_tree : ElementTree := {| getroot := sample_root |}.

Definition archive_tree : ElementTree := {| getroot := archive_root |}.

(** What [sample_save] leaves in the buffer once it is rewound. *)
Definition sample_buffer : BytesIO :=
  {| getvalue := String.list_byte_of_string "Transactions"; tell := 0 |}.

(** A message of the parser for an empty file. *)
Definition sample_detail : string := "no element found: line 1, column 0".

(** A title of 32768 characters, one more than a cell keeps. *)
Definition long_text : string :=
  String.string_of_list_ascii (replicate (MAX_STRING + 1) "x"%char).

(** One transaction whose [Title] holds [long_text]. *)
Definition long_transaction : Element :=
  Node "Transaction" PyNone [leaf "Title" long_text].

Definition long_root : Element := Node "Transactions" PyNone [long_transaction].

Definition long_tree : ElementTree := {| getroot := long_root |}.

(** A root with 1048576 transactions: the last one belongs in row
    1048577. *)
Definition crowded_root : Element :=
  Node "Transactions" PyNone (replicate MAX_ROW bare_transaction).

Definition crowded_tree : ElementTree := {| getroot := crowded_root |}.

(** What [ET.parse] makes of the document
    [<?xml version='1.0' encoding='bogus'?><Transactions>], which is not
    well-formed, its root being left open: the declaration comes first,
    the parser asks Python for the codec and the lookup fails. *)
Definition unknown_encoding : result ElementTree :=
  Raise (LookupError "unknown encoding: bogus").

(** ** Strings, time stamps and page elements used by [main] *)

(** [s.rsplit(sep, 1)] for a one-character separator: the text before and
    after the last [sep], or nothing when [s] has no [sep]. *)
Fixpoint rsplit_last (sep : Ascii.ascii) (s : string) : option (string * string) :=
  match s with
  | EmptyString => None
  | String a s' =>
      match rsplit_last sep s' with
      | Some (l, r) => Some (String a l, r)
      | None => if decide (a = sep) then Some (EmptyString, s') else None
      end
  end.

Definition rsplit1 (sep : Ascii.ascii) (s : string) : list string :=
  match rsplit_last sep s with
  | Some (l, r) => [l; r]
  | None => [s]
  end.

(** [xs[0]] *)
Definition index0 (xs : list string) : result string :=
  match xs with
  | x :: _ => Ok x
  | [] => Raise (IndexError "list index out of range")
  end.

(** A [datetime], to the second. *)
Record datetime : Type :=
  { year : nat; month : nat; day : nat;
    hour : nat; minute : nat; second : nat }.

(** [datetime.MAXYEAR] *)
Definition MAXYEAR : nat := 9999.

(** The ranges [datetime] keeps, with a four-digit year. *)
Definition valid_datetime (t : datetime) : Prop :=
  1000 ≤ year t ≤ MAXYEAR ∧ 1 ≤ month t ≤ 12 ∧ 1 ≤ day t ≤ 31
  ∧ hour t ≤ 23 ∧ minute t ≤ 59 ∧ second t ≤ 59.

Fixpoint zeros (n : nat) : string :=
  match n with
  | 0 => EmptyString
  | S n' => String "0"%char (zeros n')
  end.

(** A number in decimal, zero-padded on the left to [width] digits. *)
Definition zero_padded (width n : nat) : string :=
  zeros (width - String.length (pretty n)) +:+ pretty n.

(** One conversion of [strftime]. Years below 1000 are padded here; the
    C library may not pad them, and the statements below assume four
    digits. *)
Definition directive (c : Ascii.ascii) (t : datetime) : string :=
  if decide (c = "Y"%char) then zero_padded 4 (year t)
  else if decide (c = "m"%char) then zero_padded 2 (month t)
  else if decide (c = "d"%char) then zero_padded 2 (day t)
  else if decide (c = "H"%char) then zero_padded 2 (hour t)
  else if decide (c = "M"%char) then zero_padded 2 (minute t)
  else if decide (c = "S"%char) then zero_padded 2 (second t)
  else String "%"%char (String c EmptyString).

(** [t.strftime(fmt)] for the conversions above. *)
Fixpoint strftime (fmt : string) (t : datetime) : string :=
  match fmt with
  | EmptyString => EmptyString
  | String a rest =>
      if decide (a = "%"%char) then
        match rest with
        | String c rest' => directive c t +:+ strftime rest' t
        | EmptyString => String a EmptyString
        end
      else String a (strftime rest t)
  end.

(** The double quote, for markup that contains it. *)
Definition dq : string := String (Ascii.ascii_of_nat 34) EmptyString.

(** What a run of the page renders, in order. *)
Inductive element : Type :=
| st_title (body : string)
| st_markdown (body : string) (unsafe_allow_html : bool)
| st_file_uploader (label : string) (type : list string) (help : string)
| st_write (body : string)
| st_button (label : string) (type : string)
| st_spinner (text : string)
| st_download_button (label : string) (data : BytesIO)
    (file_name mime type : string)
| st_balloons
| st_error (body : string).

(** The markup blocks of the page (lines 177-184, 206-211, 234-238). *)
Definition info_box : string :=
  "
        <div class=" +:+ dq +:+ "info-box" +:+ dq +:+ ">
            <strong>📋 How to use:</strong><br>
            1. Upload your XML file below<br>
            2. Click " +:+ dq +:+ "Convert to Excel" +:+ dq +:+ "<br>
            3. Download your formatted Excel file
        </div>
    ".

Definition success_box (num_transactions : nat) : string :=
  "
                        <div class=" +:+ dq +:+ "success-box" +:+ dq +:+ ">
                            <strong>✅ Success!</strong><br>
                            Processed " +:+ pretty num_transactions +:+ " transactions
                        </div>
                    ".

Definition footer : string :=
  "
        <div style=" +:+ dq
  +:+ "text-align: center; color: #666; font-size: 0.9rem;" +:+ dq +:+ ">
            Upload an XML file to extract transaction data and download as Excel
        </div>
    ".

Definition xlsx_mime : string :=
  "application/vnd.openxmlformats-officedocument.spreadsheetml.sheet".

(** ** Reference values for the statements about [main] *)

(** The decimal digit [d], for [d] below 10. *)
Definition digit (d : nat) : ascii := ascii_of_nat (48 + d).

Definition two_digits (n : nat) : string :=
  String (digit (n `div` 10)) (String (digit (n `mod` 10)) EmptyString).

Definition four_digits (n : nat) : string :=
  String (digit (n `div` 1000))
    (String (digit ((n `div` 100) `mod` 10)) (two_digits (n `mod` 100))).

Definition is_download_button (el : element) : Prop :=
  match el with
  | st_download_button _ _ _ _ _ => True
  | _ => False
  end.

Definition is_error (el : element) : Prop :=
  match el with
  | st_error _ => True
  | _ => False
  end.

(** The fixed top and bottom of the page, and the lines shown for an
    uploaded file. *)
Definition page_top : list element :=
  [ st_title "📊 XML to Excel Converter";
    st_markdown
      "Convert your transaction XML files to formatted Excel spreadsheets"
      false;
    st_markdown info_box true;
    st_file_uploader "Choose an XML file" ["xml"]
      "Upload your transaction XML file (max 200MB)" ].

Definition file_details (name kb : string) : list element :=
  [ st_write ("**File:** " +:+ name);
    st_write ("**Size:** " +:+ kb +:+ " KB");
    st_button "🔄 Convert to Excel" "primary" ].

Definition page_bottom : list element :=
  [ st_markdown "---" false; st_markdown footer true ].

(** The name given to the download. *)
Definition download_name_of (original_name : string) (now : datetime)
  : string :=
  original_name +:+ "_transactions_" +:+ strftime "%Y%m%d_%H%M%S" now
  +:+ ".xlsx".

(** A sample instant and a sample upload. *)
Definition sample_now : datetime :=
  {| year := 2024; month := 1; day := 15;
     hour := 10; minute := 30; second := 5 |}.


Definition sample_name (xml_file : result ElementTree) : string :=
  "export.2024.xml".

Definition sample_size (xml_file : result ElementTree) : nat := 2048.

Definition sample_kb (size : nat) : string := "2.00".

(** A [Transaction] with a field given twice, and a child that is no field. *)
Definition double_title : Element :=
  Node "Transaction" PyNone
    [ leaf "Date" "2024-01-15"; leaf "Title" "First"; leaf "Title" "Second" ].

Definition note : Element := leaf "Note" "returned late".

Section Converter.

(** The uploaded file, [ET.parse] on it, and the bytes [wb.save] writes. *)
Context {stream : Type}.
Variable ET_parse : stream → result ElementTree.
Variable save_bytes : Workbook → list Byte.byte.

(** [wb.save(buf)] *)
Definition Workbook_save (wb : Workbook) (buf : BytesIO) : BytesIO :=
  BytesIO_write (save_bytes wb) buf.

(** The body of the [try] (lines 65-163). *)
Definition try_body (xml_file : stream) : result status :=
  tree ← ET_parse xml_file;
  let root := getroot tree in
  let data_rows := extract_rows root in
  if decide (data_rows = []) then
    Ok (None, "No transaction data found in XML file", 0)
  else
    wb ← build_workbook data_rows;
    let excel_buffer := new_BytesIO in
    let excel_buffer := Workbook_save wb excel_buffer in
    let excel_buffer := BytesIO_seek 0 excel_buffer in
    Ok (Some excel_buffer, "Success", length data_rows).

(** Lines 64-168: the body under its two handlers. *)
Definition parse_xml_to_excel (xml_file : stream) : status :=
  match try_body xml_file with
  | Ok r => r
  | Raise (ParseError msg) =>
      (None, "Invalid XML file: " +:+ exn_str (ParseError msg), 0)
  | Raise e => (None, "Error processing file: " +:+ exn_str e, 0)
  end.

(** ** [main] (lines 171-238) *)

(** What the page reads from an uploaded file: its name, its size, and the
    size in KB as the f-string prints it with two decimals. *)
Variable file_name : stream → string.
Variable file_size : stream → nat.
Variable format_kb : nat → string.

(** One run of the page. [uploaded_file] is what the uploader holds,
    [clicked] what the button returns, [now] what [datetime.now()] returns
    if it is asked. *)
Definition main (uploaded_file : option stream) (clicked : bool)
    (now : datetime) : result (list element) :=
  let page :=
    [ st_title "📊 XML to Excel Converter";
      st_markdown
        "Convert your transaction XML files to formatted Excel spreadsheets"
        false;
      st_markdown info_box true;
      st_file_uploader "Choose an XML file" ["xml"]
        "Upload your transaction XML file (max 200MB)" ] in
  page ←
    match uploaded_file with
    | Some uploaded_file =>
        let page :=
          page ++ [ st_write ("**File:** " +:+ file_name uploaded_file);
                    st_write ("**Size:** "
                              +:+ format_kb (file_size uploaded_file)
                              +:+ " KB") ] in
        let page := page ++ [st_button "🔄 Convert to Excel" "primary"] in
        if clicked then
          let page := page ++ [st_spinner "Processing your file..."] in
          let '(excel_buffer, message, num_transactions) :=
            parse_xml_to_excel uploaded_file in
          match excel_buffer with
          | Some excel_buffer =>
              let page :=
                page ++ [st_markdown (success_box num_transactions) true] in
              original_name ←
                index0 (rsplit1 "."%char (file_name uploaded_file));
              let timestamp := strftime "%Y%m%d_%H%M%S" now in
              let download_name :=
                original_name +:+ "_transactions_" +:+ timestamp
                +:+ ".xlsx" in
              Ok (page ++ [ st_download_button "📥 Download Excel File"
                              excel_buffer download_name xlsx_mime "primary";
                            st_balloons ])
          | None => Ok (page ++ [st_error ("❌ " +:+ message)])
          end
        else Ok page
    | None => Ok page
    end;
  Ok (page ++ [st_markdown "---" false; st_markdown footer true]).

(** * Properties *)

(** ** The extractor *)

Lemma foldl_snoc_fmap {X Y : Type} (f : X → Y) (xs : list X) (acc : list Y) :
  foldl (λ acc x, acc ++ [f x]) acc xs = acc ++ (f <$> xs).
Proof.
  revert acc. induction xs as [|x xs IH]; intros acc; simpl.
  - by rewrite app_nil_r.
  - rewrite IH. by rewrite <- app_assoc.
Qed.

Lemma extract_rows_fmap root :
  extract_rows root = make_record <$> findall "Transaction" root.
Proof. unfold extract_rows. by rewrite foldl_snoc_fmap. Qed.

Lemma make_record_zip t :
  make_record t = zip headers (field_text t <$> field_tags).
Proof. reflexivity. Qed.

Lemma make_record_keys t : (make_record t).*1 = headers.
Proof. reflexivity. Qed.

Lemma make_record_values t : (make_record t).*2 = field_text t <$> field_tags.
Proof. reflexivity. Qed.

Lemma dict_get_make_record t j h :
  headers !! j = Some h →
  ∃ name, field_tags !! j = Some name
    ∧ dict_get (make_record t) h = Ok (field_text t name).
Proof.
  intros Hj.
  do 19 (destruct j as [|j];
         [ injection Hj as <-; eexists; split; [reflexivity|];
           vm_compute; reflexivity |]).
  done.
Qed.

(** ** Writing cells *)

Lemma bind_Ok {A B} (f : A → result B) (a : A) : (Ok a ≫= f) = f a.
Proof. reflexivity. Qed.

Lemma fill_row {X : Type} (body : Worksheet → nat * X → result Worksheet)
    (cellof : nat → X → Cell) (r : nat) (xs : list X) :
  (∀ ws c x, 1 ≤ c → x ∈ xs → cells ws !! (r, c) = None →
     body ws (c, x) = Ok (with_cell r c (cellof c x) ws)) →
  ∀ k ws, 1 ≤ k → (∀ c, k ≤ c → cells ws !! (r, c) = None) →
  ∃ ws', for_each body (enumerate xs k) ws = Ok ws'
    ∧ title ws' = title ws
    ∧ column_dimensions ws' = column_dimensions ws
    ∧ ∀ r' c', cells ws' !! (r', c') =
        if decide (r' = r ∧ k ≤ c')
        then match xs !! (c' - k) with
             | Some x => Some (cellof c' x)
             | None => cells ws !! (r', c')
             end
        else cells ws !! (r', c').
Proof.
  induction xs as [|x xs IH]; intros Hbody k ws Hk Hfresh.
  - exists ws. repeat split; try done. intros r' c'. by case_decide.
  - simpl. rewrite Hbody by (auto; apply list_elem_of_here).
    rewrite bind_Ok.
    destruct (IH (λ ws c y Hc Hy, Hbody ws c y Hc (list_elem_of_further _ _ _ Hy))
                 (S k) (with_cell r k (cellof k x) ws)) as (ws' & -> & Ht & Hd & Hc).
    { lia. }
    { intros c Hc. simpl. rewrite lookup_insert_ne by (intros [=]; lia).
      apply Hfresh. lia. }
    exists ws'. split; [done|]. split; [done|]. split; [done|].
    intros r' c'. rewrite Hc. simpl.
    destruct (decide (r' = r ∧ k ≤ c')) as [[-> Hle]|Hn].
    + destruct (decide (c' = k)) as [->|Hne].
      * rewrite decide_False by lia. rewrite Nat.sub_diag. simpl.
        by rewrite lookup_insert_eq.
      * rewrite decide_True by lia.
        replace (c' - k) with (S (c' - S k)) by lia. simpl.
        destruct (xs !! (c' - S k)); [done|].
        rewrite lookup_insert_ne; [done|]. intros [=]; lia.
    + rewrite decide_False by lia.
      rewrite lookup_insert_ne; [done|]. intros [=]; lia.
Qed.

Lemma get_cell_fresh ws r c :
  cells ws !! (r, c) = None → get_cell ws r c = empty_cell r c.
Proof. unfold get_cell. by intros ->. Qed.

Lemma MAX_ROW_eq : N.of_nat MAX_ROW = 1048576%N.
Proof. unfold MAX_ROW. by rewrite Nat2N.inj_mul. Qed.

Lemma MAX_ROW_pos : 1 ≤ MAX_ROW.
Proof. unfold MAX_ROW. lia. Qed.

(** From here on the limit is a number like any other: nothing below
    needs its digits. *)
Opaque MAX_ROW.

Lemma pretty_row_limit : pretty (MAX_ROW + 1) = "1048577".
Proof.
  change (pretty (MAX_ROW + 1)) with (pretty (N.of_nat (MAX_ROW + 1))).
  by rewrite Nat2N.inj_add, MAX_ROW_eq.
Qed.


Lemma bind_Raise {A B} (f : A → result B) (e : exn) : (Raise e ≫= f) = Raise e.
Proof. reflexivity. Qed.

(** A loop whose body cannot raise on the items it meets does not raise. *)
Lemma for_each_Ok {S X : Type} (body : S → X → result S) (xs : list X) :
  (∀ s x, x ∈ xs → ∃ s', body s x = Ok s') →
  ∀ s, ∃ s', for_each body xs s = Ok s'.
Proof.
  induction xs as [|x xs IH]; intros Hbody s; [by exists s|].
  cbn [for_each].
  destruct (Hbody s x (list_elem_of_here _ _)) as [s1 ->]. rewrite bind_Ok.
  apply IH. intros s0 y Hy. apply Hbody. by apply list_elem_of_further.
Qed.

Lemma elem_of_enumerate {X : Type} (xs : list X) : ∀ k i x,
  (i, x) ∈ enumerate xs k → k ≤ i < k + length xs ∧ x ∈ xs.
Proof.
  induction xs as [|y xs IH]; intros k i x Hin; [by apply elem_of_nil in Hin|].
  cbn [enumerate] in Hin. apply elem_of_cons in Hin as [[= -> ->]|Hin].
  - split; [simpl; lia|apply list_elem_of_here].
  - apply IH in Hin as [Hi Hx]. split; [simpl; lia|].
    by apply list_elem_of_further.
Qed.

(** ** What [check_string] lets through *)

Lemma substring_all s : ∀ n, String.length s ≤ n → String.substring 0 n s = s.
Proof.
  induction s as [|a s IH]; intros n Hn; [by destruct n|].
  destruct n as [|n]; simpl in *; [lia|]. rewrite IH; [done|lia].
Qed.

Lemma check_string_Ok s s' :
  check_string s = Ok s' → s' = String.substring 0 MAX_STRING s.
Proof.
  unfold check_string. cbv zeta.
  destruct (existsb _ _); [discriminate|]. by intros [= <-].
Qed.

Lemma xml_char_legal a : xml_char a = true → illegal_character a = false.
Proof.
  unfold xml_char, illegal_character. cbv zeta.
  generalize (nat_of_ascii a). intros n Hn.
  repeat match goal with
         | |- context [?x <=? ?y] => destruct (Nat.leb_spec x y)
         | H : context [?x <=? ?y] |- _ => destruct (Nat.leb_spec x y)
         | H : context [?x =? ?y] |- _ => destruct (Nat.eqb_spec x y)
         end; simpl in *; try reflexivity; try discriminate; lia.
Qed.

Lemma xml_string_substring s : ∀ n m,
  xml_string s = true → xml_string (String.substring n m s) = true.
Proof.
  unfold xml_string.
  induction s as [|a s IH]; intros n m Hs; [by destruct n, m|].
  simpl in Hs. apply andb_prop in Hs as [Ha Hs].
  destruct n as [|n]; [destruct m as [|m]|]; simpl; [done| |by apply IH].
  by rewrite Ha, IH.
Qed.

Lemma check_string_xml s :
  xml_string s = true → check_string s = Ok (String.substring 0 MAX_STRING s).
Proof.
  intros Hs. unfold check_string. cbv zeta.
  apply (xml_string_substring s 0 MAX_STRING) in Hs. unfold xml_string in Hs.
  generalize dependent (String.substring 0 MAX_STRING s). intros t Ht.
  assert (Hnone : existsb illegal_character (String.list_ascii_of_string t)
                  = false).
  { induction (String.list_ascii_of_string t) as [|a l IH]; [done|].
    simpl in *. apply andb_prop in Ht as [Ha Hl].
    by rewrite (xml_char_legal a Ha), IH. }
  by rewrite Hnone.
Qed.

Lemma check_string_header h : h ∈ headers → check_string h = Ok h.
Proof.
  intros Hh. apply list_elem_of_lookup in Hh as [j Hj].
  do 19 (destruct j as [|j];
         [injection Hj as <-; vm_compute; reflexivity|]).
  discriminate Hj.
Qed.

(** ** Writing one cell *)

(** A cell written where there was none is an unstyled cell holding what
    [check_string] kept of the value; the row is then within the sheet. *)
Lemma ws_cell_Ok ws r c v ws1 cell :
  cells ws !! (r, c) = None →
  ws_cell ws r c v = Ok (ws1, cell) →
  ws1 = with_cell r c (data_cell r c (stored v)) ws
  ∧ cell = data_cell r c (stored v)
  ∧ 1 ≤ r ≤ MAX_ROW.
Proof.
  intros Hfresh. unfold ws_cell, Worksheet_get_cell.
  case_decide; [discriminate|]. case_decide as Hr; [|discriminate].
  rewrite bind_Ok, get_cell_fresh by done.
  destruct v as [|s].
  - intros [= <- <-]. repeat split; lia.
  - destruct (check_string s) as [s'|e] eqn:Hs; [|discriminate].
    apply check_string_Ok in Hs as ->. rewrite bind_Ok.
    intros [= <- <-]. repeat split; lia.
Qed.

Lemma ws_cell_succeeds ws r c v :
  1 ≤ r ≤ MAX_ROW → 1 ≤ c → xml_value v = true →
  ∃ ws1 cell, ws_cell ws r c v = Ok (ws1, cell).
Proof.
  intros Hr Hc Hv. unfold ws_cell, Worksheet_get_cell.
  rewrite decide_False by lia. rewrite decide_True by lia. rewrite bind_Ok.
  destruct v as [|s]; [by eauto|].
  rewrite (check_string_xml s Hv), bind_Ok. by eauto.
Qed.

Lemma ws_cell_overflow ws r c v :
  MAX_ROW < r → 1 ≤ c →
  ws_cell ws r c v
  = Raise (ValueError ("Row numbers must be between 1 and 1048576. "
                       +:+ "Row number supplied was " +:+ pretty r)).
Proof.
  intros Hr Hc. unfold ws_cell, Worksheet_get_cell.
  rewrite decide_False by lia. by rewrite decide_False by lia.
Qed.

(** ** The header row *)

Lemma write_header_fresh ws c h :
  1 ≤ c → h ∈ headers → cells ws !! (1, c) = None →
  write_header ws (c, h) = Ok (with_cell 1 c (header_cell c h) ws).
Proof.
  intros Hc Hh Hfresh. unfold write_header, ws_cell, Worksheet_get_cell.
  rewrite decide_False by lia.
  rewrite decide_True by (pose proof MAX_ROW_pos; lia).
  rewrite bind_Ok, (check_string_header h Hh), bind_Ok.
  rewrite get_cell_fresh by done.
  unfold put_cell, with_cell, header_cell. cbn.
  by rewrite !insert_insert_eq.
Qed.

Lemma write_headers k ws :
  1 ≤ k → (∀ c, k ≤ c → cells ws !! (1, c) = None) →
  ∃ ws', for_each write_header (enumerate headers k) ws = Ok ws'
    ∧ title ws' = title ws
    ∧ column_dimensions ws' = column_dimensions ws
    ∧ ∀ r c, cells ws' !! (r, c) =
        if decide (r = 1 ∧ k ≤ c)
        then match headers !! (c - k) with
             | Some h => Some (header_cell c h)
             | None => cells ws !! (r, c)
             end
        else cells ws !! (r, c).
Proof.
  intros Hk Hfresh.
  apply (fill_row write_header header_cell 1 headers); [|done..].
  intros ws0 c x Hc Hx H0. by apply write_header_fresh.
Qed.

(** ** The data rows *)

(** The cells a loop has written along row [r] when it returns, each item
    writing one fresh cell. *)
Lemma filled_row {X : Type} (body : Worksheet → nat * X → result Worksheet)
    (cellof : nat → X → Cell) (r : nat) (xs : list X) :
  (∀ ws c x ws1, 1 ≤ c → x ∈ xs → cells ws !! (r, c) = None →
     body ws (c, x) = Ok ws1 → ws1 = with_cell r c (cellof c x) ws) →
  ∀ k ws ws', 1 ≤ k → (∀ c, k ≤ c → cells ws !! (r, c) = None) →
  for_each body (enumerate xs k) ws = Ok ws' →
  title ws' = title ws
  ∧ column_dimensions ws' = column_dimensions ws
  ∧ ∀ r' c', cells ws' !! (r', c') =
      if decide (r' = r ∧ k ≤ c')
      then match xs !! (c' - k) with
           | Some x => Some (cellof c' x)
           | None => cells ws !! (r', c')
           end
      else cells ws !! (r', c').
Proof.
  induction xs as [|x xs IH]; intros Hbody k ws ws' Hk Hfresh Hrun.
  - injection Hrun as <-. repeat split; try done. intros r' c'. by case_decide.
  - cbn [for_each enumerate] in Hrun.
    destruct (body ws (k, x)) as [ws1|e] eqn:Hstep; [|discriminate Hrun].
    rewrite bind_Ok in Hrun.
    apply Hbody in Hstep as ->; [|lia|apply list_elem_of_here|by apply Hfresh].
    destruct (IH (λ ws c y ws1 Hc Hy,
                    Hbody ws c y ws1 Hc (list_elem_of_further _ _ _ Hy))
                 (S k) (with_cell r k (cellof k x) ws) ws')
      as (Ht & Hd & Hc); [lia| |exact Hrun|].
    { intros c Hc. simpl. rewrite lookup_insert_ne by (intros [=]; lia).
      apply Hfresh. lia. }
    clear Hrun. split; [done|]. split; [done|].
    intros r' c'. rewrite Hc. simpl.
    destruct (decide (r' = r ∧ k ≤ c')) as [[-> Hle]|Hn].
    + destruct (decide (c' = k)) as [->|Hne].
      * rewrite decide_False by lia. rewrite Nat.sub_diag. simpl.
        by rewrite lookup_insert_eq.
      * rewrite decide_True by lia.
        replace (c' - k) with (S (c' - S k)) by lia. simpl.
        destruct (xs !! (c' - S k)); [done|].
        rewrite lookup_insert_ne; [done|]. intros [=]; lia.
    + rewrite decide_False by lia.
      rewrite lookup_insert_ne; [done|]. intros [=]; lia.
Qed.

Lemma dict_get_elem (d : record) k v : dict_get d k = Ok v → (k, v) ∈ d.
Proof.
  induction d as [|[k0 v0] d IH]; [discriminate|]. simpl.
  case_decide as Hk.
  - intros [= ->]. subst. apply list_elem_of_here.
  - intros Hget. apply list_elem_of_further. by apply IH.
Qed.

Lemma write_row_Ok ws r data ws' :
  1 ≤ r → complete data → (∀ c, 1 ≤ c → cells ws !! (r, c) = None) →
  write_row ws (r, data) = Ok ws' →
  title ws' = title ws
  ∧ column_dimensions ws' = column_dimensions ws
  ∧ ∀ r' c', cells ws' !! (r', c') =
      if decide (r' = r ∧ 1 ≤ c')
      then match headers !! (c' - 1) with
           | Some h => Some (data_cell r c' (stored (dict_value data h)))
           | None => cells ws !! (r', c')
           end
      else cells ws !! (r', c').
Proof.
  intros Hr Hdata Hfresh. unfold write_row.
  apply (filled_row _ (λ c h, data_cell r c (stored (dict_value data h)))
           r headers); [|done..].
  intros ws0 c h ws1 Hc Hh H0. unfold dict_value.
  destruct (Hdata h Hh) as [v ->]. rewrite bind_Ok.
  destruct (ws_cell ws0 r c v) as [[ws2 cell]|e] eqn:Hcell; [|discriminate].
  apply ws_cell_Ok in Hcell as (-> & _ & _); [|done].
  rewrite bind_Ok. by intros [= <-].
Qed.

Lemma write_row_succeeds ws r data :
  1 ≤ r ≤ MAX_ROW → complete data → xml_record data →
  ∃ ws', write_row ws (r, data) = Ok ws'.
Proof.
  intros Hr Hdata Hxml. unfold write_row. apply for_each_Ok.
  intros ws0 [c h] Hin. apply elem_of_enumerate in Hin as [Hc Hh].
  destruct (Hdata h Hh) as [v Hv]. rewrite Hv, bind_Ok.
  destruct (ws_cell_succeeds ws0 r c v) as (ws1 & cell & ->); [done|lia| |].
  - apply dict_get_elem in Hv. exact (Hxml _ Hv).
  - rewrite bind_Ok. by eauto.
Qed.

Lemma write_row_overflow ws r data :
  MAX_ROW < r → complete data →
  write_row ws (r, data)
  = Raise (ValueError ("Row numbers must be between 1 and 1048576. "
                       +:+ "Row number supplied was " +:+ pretty r)).
Proof.
  intros Hr Hdata. unfold write_row.
  change (enumerate headers 1)
    with ((1, "Transaction Type") :: enumerate (tail headers) 2).
  cbn [for_each].
  destruct (Hdata "Transaction Type") as [v ->]; [apply list_elem_of_here|].
  rewrite bind_Ok, ws_cell_overflow by lia. reflexivity.
Qed.

Lemma write_rows_Ok batch :
  Forall complete batch →
  ∀ k ws ws', 1 ≤ k → (∀ r c, k ≤ r → cells ws !! (r, c) = None) →
  for_each write_row (enumerate batch k) ws = Ok ws' →
  title ws' = title ws
  ∧ column_dimensions ws' = column_dimensions ws
  ∧ ∀ r c, cells ws' !! (r, c) =
      if decide (k ≤ r ∧ 1 ≤ c)
      then match batch !! (r - k), headers !! (c - 1) with
           | Some data, Some h =>
               Some (data_cell r c (stored (dict_value data h)))
           | _, _ => cells ws !! (r, c)
           end
      else cells ws !! (r, c).
Proof.
  induction 1 as [|data batch Hdata _ IH]; intros k ws ws' Hk Hfresh Hrun.
  - injection Hrun as <-. repeat split; try done. intros r c. by case_decide.
  - cbn [for_each enumerate] in Hrun.
    destruct (write_row ws (k, data)) as [ws1|e] eqn:Hrow;
      [|discriminate Hrun].
    rewrite bind_Ok in Hrun.
    apply write_row_Ok in Hrow as (Ht1 & Hd1 & Hc1); [|done|done|by auto].
    destruct (IH (S k) ws1 ws') as (Ht & Hd & Hc); [lia| |exact Hrun|].
    { intros r c Hr. rewrite Hc1. rewrite decide_False by lia.
      apply Hfresh. lia. }
    clear Hrun. split; [congruence|]. split; [congruence|].
    intros r c. rewrite Hc, Hc1.
    destruct (decide (k ≤ r ∧ 1 ≤ c)) as [[Hle Hc']|Hn].
    + destruct (decide (r = k)) as [->|Hne].
      * rewrite decide_False by lia. rewrite decide_True by done.
        rewrite Nat.sub_diag. simpl. by destruct (headers !! (c - 1)).
      * rewrite decide_True by lia.
        rewrite (decide_False (P := r = k ∧ 1 ≤ c)) by lia.
        replace (r - k) with (S (r - S k)) by lia. done.
    + rewrite decide_False by lia. by rewrite decide_False by lia.
Qed.

Lemma write_rows_succeeds batch k ws :
  1 ≤ k → k + length batch ≤ MAX_ROW + 1 →
  Forall complete batch → Forall xml_record batch →
  ∃ ws', for_each write_row (enumerate batch k) ws = Ok ws'.
Proof.
  intros Hk Hlen Hcomplete Hxml. apply for_each_Ok.
  intros ws0 [r data] Hin. apply elem_of_enumerate in Hin as [Hr Hdata].
  apply write_row_succeeds; [lia|..].
  - exact (proj1 (Forall_forall _ _) Hcomplete data Hdata).
  - exact (proj1 (Forall_forall _ _) Hxml data Hdata).
Qed.

(** Past the last row of the sheet the loop raises, at row 1048577. *)
Lemma write_rows_overflow batch :
  Forall complete batch → Forall xml_record batch →
  ∀ k ws, 1 ≤ k → k ≤ MAX_ROW + 1 → MAX_ROW + 1 < k + length batch →
  for_each write_row (enumerate batch k) ws
  = Raise (ValueError ("Row numbers must be between 1 and 1048576. "
                       +:+ "Row number supplied was "
                       +:+ pretty (MAX_ROW + 1))).
Proof.
  intros Hcomplete Hxml. revert Hxml.
  induction Hcomplete as [|data batch Hdata _ IH]; intros Hxml k ws Hk Hle Hlen.
  - cbn [length] in Hlen. lia.
  - apply Forall_cons in Hxml as [Hx Hxml]. cbn [for_each enumerate].
    destruct (decide (k = MAX_ROW + 1)) as [->|Hne].
    + rewrite write_row_overflow; [|lia|exact Hdata].
      apply bind_Raise.
    + destruct (write_row_succeeds ws k data) as [ws1 ->]; [lia|done|done|].
      rewrite bind_Ok. cbn [length] in Hlen.
      apply IH; [exact Hxml|lia|lia|lia].
Qed.

(** ** The sheet after the data rows *)

Lemma grid_is_Some batch r c :
  is_Some (grid batch r c)
  ↔ (1 ≤ r ≤ length batch + 1 ∧ 1 ≤ c ≤ length headers).
Proof.
  destruct r as [|[|i]], c as [|j]; simpl grid;
    try (split; [intros [? [=]]|lia]).
  - rewrite fmap_is_Some, lookup_lt_is_Some. lia.
  - destruct (batch !! i) as [data|] eqn:Hi; simpl.
    + apply lookup_lt_Some in Hi.
      destruct (headers !! j) as [h|] eqn:Hj.
      * apply lookup_lt_Some in Hj. simpl in Hj. split; [lia|eauto].
      * apply lookup_ge_None in Hj. simpl in Hj. split; [intros [? [=]]|lia].
    + apply lookup_ge_None in Hi. split; [intros [? [=]]|lia].
Qed.

Lemma max_list_keys {V : Type} (m : gmap (nat * nat) V)
    (proj : nat * nat → nat) (M : nat) :
  (∀ k, is_Some (m !! k) → proj k ≤ M) →
  (∃ k, is_Some (m !! k) ∧ proj k = M) →
  max_list (proj <$> (map_to_list m).*1) = M.
Proof.
  intros Hle (k & [v Hk] & HM).
  assert (Hin : M ∈ proj <$> (map_to_list m).*1).
  { apply list_elem_of_fmap. exists k. split; [done|].
    apply list_elem_of_fmap. exists (k, v). split; [done|].
    by apply elem_of_map_to_list. }
  apply Nat.le_antisymm; [|by apply max_list_elem_of_le].
  assert (Hne : proj <$> (map_to_list m).*1 ≠ [])
    by (intros E; rewrite E in Hin; inversion Hin).
  apply max_list_elem_of in Hne.
  apply list_elem_of_fmap in Hne as (k' & -> & Hk').
  apply list_elem_of_fmap in Hk' as ([k'' v'] & -> & Hk'').
  apply elem_of_map_to_list in Hk''. apply Hle. simpl. eauto.
Qed.

Section Sheet.
Variable batch : list record.
Variable ws : Worksheet.
Hypothesis Hgrid : ∀ r c, cells ws !! (r, c) = grid batch r c.

Lemma sheet_nonempty : cells ws ≠ ∅.
Proof.
  intros E. specialize (Hgrid 1 1). rewrite E, lookup_empty in Hgrid. done.
Qed.

Lemma sheet_max_row : max_row ws = length batch + 1.
Proof.
  unfold max_row. rewrite decide_False by apply sheet_nonempty.
  apply max_list_keys.
  - intros [r c]. rewrite Hgrid, grid_is_Some. simpl. lia.
  - exists (length batch + 1, 1). rewrite Hgrid, grid_is_Some. simpl. lia.
Qed.

Lemma sheet_max_column : max_column ws = 19.
Proof.
  unfold max_column. rewrite decide_False by apply sheet_nonempty.
  apply max_list_keys.
  - intros [r c]. rewrite Hgrid, grid_is_Some. simpl. lia.
  - exists (1, 19). rewrite Hgrid, grid_is_Some. simpl. lia.
Qed.

Lemma sheet_columns :
  columns ws =
    (λ c, (λ r, get_cell ws r c) <$> seq 1 (length batch + 1)) <$> seq 1 19.
Proof.
  unfold columns. rewrite decide_False by apply sheet_nonempty.
  by rewrite sheet_max_row, sheet_max_column.
Qed.

End Sheet.

Lemma make_record_complete t : complete (make_record t).
Proof.
  intros h Hh. apply list_elem_of_lookup in Hh as [j Hj].
  destruct (dict_get_make_record t j h Hj) as (name & _ & ->). eauto.
Qed.

Lemma write_sheet batch :
  Forall complete batch →
  ∃ ws1,
    for_each write_header (enumerate headers 1)
      (set_title "Transactions" (active new_Workbook)) = Ok ws1
    ∧ (∀ r c, 2 ≤ r → cells ws1 !! (r, c) = None)
    ∧ ∀ ws, for_each write_row (enumerate batch 2) ws1 = Ok ws →
        title ws = "Transactions"
        ∧ column_dimensions ws = ∅
        ∧ ∀ r c, cells ws !! (r, c) = grid batch r c.
Proof.
  intros Hbatch.
  destruct (write_headers 1 (set_title "Transactions" (active new_Workbook)))
    as (ws1 & Hw1 & Ht1 & Hd1 & Hc1); [done|done|].
  exists ws1. split; [exact Hw1|]. clear Hw1.
  assert (Hfresh : ∀ r c, 2 ≤ r → cells ws1 !! (r, c) = None).
  { intros r c Hr. rewrite Hc1. rewrite decide_False by lia. done. }
  split; [exact Hfresh|]. intros ws2 Hw2.
  destruct (write_rows_Ok batch Hbatch 2 ws1 ws2) as (Ht2 & Hd2 & Hc2);
    [lia|exact Hfresh|exact Hw2|].
  clear Hw2.
  split; [by rewrite Ht2, Ht1|]. split; [by rewrite Hd2, Hd1|].
  intros r c. rewrite Hc2, Hc1. simpl cells. rewrite lookup_empty.
  destruct r as [|[|i]], c as [|j]; simpl grid; try done.
  - rewrite decide_False by lia. rewrite decide_True by lia.
    replace (S j - 1) with j by lia. by destruct (headers !! j).
  - rewrite decide_True by lia.
    replace (S (S i) - 2) with i by lia. replace (S j - 1) with j by lia.
    rewrite decide_False by lia.
    destruct (batch !! i); simpl; [|done]. by destruct (headers !! j).
Qed.

(** ** Column widths *)

Lemma scan_cell_None m cell : cell_value cell = PyNone → scan_cell m cell = m.
Proof. unfold scan_cell. intros ->. simpl. by case_decide. Qed.

Lemma scan_cell_str m cell s :
  cell_value cell = PyStr s → scan_cell m cell = m `max` String.length s.
Proof. unfold scan_cell. intros ->. simpl. case_decide; lia. Qed.

Lemma scan_cell_max m cell : 4 ≤ m → scan_cell m cell = m `max` str_len cell.
Proof.
  intros Hm. unfold str_len. destruct (cell_value cell) as [|s] eqn:Hv.
  - rewrite scan_cell_None by done. simpl. lia.
  - by rewrite (scan_cell_str m cell s).
Qed.

Lemma foldl_scan_cell col : ∀ m, 4 ≤ m → foldl scan_cell m col = m `max` maxLen col.
Proof.
  induction col as [|cell col IH]; intros m Hm; simpl.
  - unfold maxLen. simpl. lia.
  - rewrite scan_cell_max by done. rewrite IH by lia.
    unfold maxLen. simpl. lia.
Qed.

Lemma scan_column cell col s :
  cell_value cell = PyStr s → 4 ≤ String.length s →
  foldl scan_cell 0 (cell :: col) = maxLen (cell :: col).
Proof.
  intros Hv Hs. simpl. rewrite (scan_cell_str 0 cell s) by done.
  rewrite foldl_scan_cell by lia.
  unfold maxLen, str_len. simpl. rewrite Hv. simpl. lia.
Qed.

Lemma autosize_column_ok ws col cell0 l :
  head col = Some cell0 → column_letter cell0 = Ok l →
  autosize_column ws col = Ok (set_width l (col_width col) ws).
Proof.
  intros Hhd Hl. unfold autosize_column.
  destruct col as [|c col]; [done|]. injection Hhd as ->.
  rewrite bind_Ok, Hl. done.
Qed.

Lemma autosize_columns cols ls :
  Forall2 (λ col l, ∃ cell0, head col = Some cell0 ∧ column_letter cell0 = Ok l)
          cols ls →
  ∀ ws, ∃ ws', for_each autosize_column cols ws = Ok ws'
    ∧ title ws' = title ws
    ∧ cells ws' = cells ws
    ∧ column_dimensions ws' = foldl assign_width (column_dimensions ws) (zip ls cols).
Proof.
  induction 1 as [|col l cols ls (cell0 & Hhd & Hl) _ IH]; intros ws.
  - by exists ws.
  - cbn [for_each]. rewrite (autosize_column_ok ws col cell0 l) by done.
    rewrite bind_Ok.
    destruct (IH (set_width l (col_width col) ws)) as (ws' & -> & Ht & Hc & Hd).
    exists ws'. by rewrite Ht, Hc, Hd.
Qed.

Lemma assign_width_other (l : string) ls : ∀ cols d,
  l ∉ ls → foldl assign_width d (zip ls cols) !! l = d !! l.
Proof.
  induction ls as [|l0 ls IH]; intros [|col cols] d Hl; simpl; try done.
  apply not_elem_of_cons in Hl as [Hne Hl].
  rewrite IH by done. unfold assign_width. simpl. by rewrite lookup_insert_ne.
Qed.

Lemma assign_width_lookup ls : ∀ cols d j l col,
  NoDup ls → ls !! j = Some l → cols !! j = Some col →
  foldl assign_width d (zip ls cols) !! l = Some (col_width col).
Proof.
  induction ls as [|l0 ls IH]; intros [|c0 cols] d j l col Hnd Hl Hcol;
    try done.
  apply NoDup_cons in Hnd as [Hnotin Hnd].
  destruct j as [|j]; simpl in *.
  - injection Hl as ->. injection Hcol as ->.
    rewrite assign_width_other by done.
    unfold assign_width. simpl. by rewrite lookup_insert_eq.
  - by apply (IH cols _ j).
Qed.

Lemma letters_NoDup : NoDup letters.
Proof. apply (bool_decide_unpack _). vm_compute. exact I. Qed.

Lemma header_lengths h : h ∈ headers → 4 ≤ String.length h.
Proof.
  intros Hh. apply list_elem_of_lookup in Hh as [j Hj].
  do 19 (destruct j as [|j]; [injection Hj as <-; vm_compute; lia|]).
  done.
Qed.

Lemma get_column_letter_letters j l :
  letters !! j = Some l → get_column_letter (S j) = Ok l.
Proof.
  intros Hj.
  do 19 (destruct j as [|j]; [injection Hj as <-; vm_compute; reflexivity|]).
  discriminate Hj.
Qed.

Lemma sheet_column_lookup batch ws j col :
  (∀ r c, cells ws !! (r, c) = grid batch r c) →
  columns ws !! j = Some col →
  j < 19 ∧ col = (λ r, get_cell ws r (S j)) <$> seq 1 (length batch + 1).
Proof.
  intros Hgrid. rewrite (sheet_columns batch ws Hgrid).
  rewrite list_lookup_fmap. intros Hcol.
  apply fmap_Some in Hcol as (c & Hc & ->).
  apply lookup_seq in Hc as [-> Hj]. done.
Qed.

Lemma sheet_header_cell batch ws j h :
  (∀ r c, cells ws !! (r, c) = grid batch r c) →
  headers !! j = Some h →
  get_cell ws 1 (S j) = header_cell (S j) h.
Proof.
  intros Hgrid Hh. unfold get_cell. rewrite Hgrid. simpl grid. by rewrite Hh.
Qed.

Lemma sheet_columns_letters batch ws :
  (∀ r c, cells ws !! (r, c) = grid batch r c) →
  Forall2 (λ col l, ∃ cell0, head col = Some cell0 ∧ column_letter cell0 = Ok l)
          (columns ws) letters.
Proof.
  intros Hgrid. apply Forall2_same_length_lookup_2.
  { rewrite (sheet_columns batch ws Hgrid). by rewrite length_fmap. }
  intros j col l Hcol Hl.
  apply (sheet_column_lookup batch) in Hcol as [Hj ->]; [|done].
  destruct (lookup_lt_is_Some_2 headers j) as [h Hh]; [simpl; lia|].
  exists (header_cell (S j) h). split.
  - rewrite Nat.add_1_r. cbn [seq fmap list_fmap head].
    f_equal. by apply (sheet_header_cell batch).
  - unfold column_letter. cbn [column header_cell].
    by apply get_column_letter_letters.
Qed.

Lemma columns_cells ws ws' : cells ws' = cells ws → columns ws' = columns ws.
Proof.
  intros E. unfold columns, max_row, max_column, get_cell. by rewrite E.
Qed.

(** What a workbook that was built holds. *)
Lemma build_workbook_spec batch wb :
  Forall complete batch →
  build_workbook batch = Ok wb →
  title (active wb) = "Transactions"
  ∧ (∀ r c, cells (active wb) !! (r, c) = grid batch r c)
  ∧ (∀ j l col, letters !! j = Some l → columns (active wb) !! j = Some col →
       column_dimensions (active wb) !! l = Some (col_width col))
  ∧ (∀ l, l ∉ letters → column_dimensions (active wb) !! l = None).
Proof.
  intros Hbatch Hbuild.
  destruct (write_sheet batch Hbatch) as (ws1 & Hw1 & _ & Hrows).
  unfold build_workbook in Hbuild. cbv zeta in Hbuild.
  rewrite Hw1, bind_Ok in Hbuild. clear Hw1.
  destruct (for_each write_row (enumerate batch 2) ws1) as [ws2|e] eqn:Hw2;
    [|discriminate Hbuild].
  destruct (Hrows ws2 eq_refl) as (Ht & Hd & Hg). clear Hrows Hw2.
  rewrite bind_Ok in Hbuild.
  destruct (autosize_columns (columns ws2) letters
              (sheet_columns_letters batch ws2 Hg) ws2)
    as (ws3 & Hw3 & Ht3 & Hc3 & Hd3).
  rewrite Hw3, bind_Ok in Hbuild. clear Hw3. injection Hbuild as <-.
  cbn [active].
  split; [by rewrite Ht3|].
  split; [intros r c; by rewrite Hc3|].
  rewrite (columns_cells ws2 ws3 Hc3), Hd3, Hd. split.
  - intros j l col Hl Hcol.
    by apply (assign_width_lookup letters (columns ws2) ∅ j);
      [apply letters_NoDup|..].
  - intros l Hl. by rewrite assign_width_other.
Qed.

(** A batch that fits the sheet and holds XML characters only gives a
    workbook. *)
Lemma build_workbook_succeeds batch :
  Forall complete batch → Forall xml_record batch →
  length batch + 1 ≤ MAX_ROW →
  ∃ wb, build_workbook batch = Ok wb.
Proof.
  intros Hbatch Hxml Hlen.
  destruct (write_sheet batch Hbatch) as (ws1 & Hw1 & _ & Hrows).
  destruct (write_rows_succeeds batch 2 ws1) as [ws2 Hw2];
    [lia|lia|done|done|].
  destruct (Hrows ws2 Hw2) as (_ & _ & Hg).
  destruct (autosize_columns (columns ws2) letters
              (sheet_columns_letters batch ws2 Hg) ws2) as (ws3 & Hw3 & _).
  exists {| active := ws3 |}.
  unfold build_workbook. cbv zeta.
  rewrite Hw1, bind_Ok, Hw2, bind_Ok, Hw3. reflexivity.
Qed.

(** A batch with 1048576 records or more does not fit: the row loop
    raises at row 1048577. *)
Lemma build_workbook_overflow batch :
  Forall complete batch → Forall xml_record batch →
  MAX_ROW ≤ length batch →
  build_workbook batch
  = Raise (ValueError ("Row numbers must be between 1 and 1048576. "
                       +:+ "Row number supplied was "
                       +:+ pretty (MAX_ROW + 1))).
Proof.
  intros Hbatch Hxml Hlen.
  destruct (write_sheet batch Hbatch) as (ws1 & Hw1 & _ & _).
  unfold build_workbook. cbv zeta. rewrite Hw1, bind_Ok.
  rewrite (write_rows_overflow batch Hbatch Hxml 2 ws1);
    [|lia|pose proof MAX_ROW_pos; lia|lia].
  apply bind_Raise.
Qed.

(** ** Records *)

Lemma dict_get_lookup (d : record) : ∀ j k v,
  NoDup d.*1 → d !! j = Some (k, v) → dict_get d k = Ok v.
Proof.
  induction d as [|[k0 v0] d IH]; intros j k v Hnd Hj; [done|].
  simpl in Hnd. apply NoDup_cons in Hnd as [Hnotin Hnd].
  destruct j as [|j]; simpl in *.
  - injection Hj as -> ->. by rewrite decide_True.
  - rewrite decide_False; [by apply (IH j)|].
    intros ->. apply Hnotin. apply list_elem_of_fmap.
    exists (k, v). split; [done|]. by apply list_elem_of_lookup_2 with j.
Qed.

Lemma headers_NoDup : NoDup headers.
Proof. apply (bool_decide_unpack _). vm_compute. exact I. Qed.

Lemma record_item t j k v :
  make_record t !! j = Some (k, v) →
  headers !! j = Some k ∧ dict_value (make_record t) k = v.
Proof.
  intros Hj. split.
  - rewrite <- (make_record_keys t), list_lookup_fmap, Hj. done.
  - unfold dict_value. rewrite (dict_get_lookup _ j k v); [done| |done].
    rewrite make_record_keys. apply headers_NoDup.
Qed.

Lemma find_absent name elem :
  (∀ e, e ∈ children elem → tag e ≠ name) → find name elem = None.
Proof.
  intros Habs. unfold find, findall.
  destruct (filter _ _) as [|e l] eqn:Hf; [done|].
  assert (He : e ∈ filter (λ e, tag e = name) (children elem))
    by (rewrite Hf; apply list_elem_of_here).
  apply list_elem_of_filter in He as [Htag Hin]. by destruct (Habs e Hin).
Qed.

Lemma make_record_lookup t j name header :
  field_tags !! j = Some name → headers !! j = Some header →
  make_record t !! j = Some (header, field_text t name).
Proof.
  intros Hn Hh. rewrite make_record_zip.
  apply lookup_zip_with_Some. exists header, (field_text t name).
  split; [done|]. split; [done|]. by rewrite list_lookup_fmap, Hn.
Qed.

(** ** The converter *)

Lemma extract_rows_complete root : Forall complete (extract_rows root).
Proof.
  rewrite extract_rows_fmap. apply Forall_fmap, Forall_forall.
  intros t _. apply make_record_complete.
Qed.

Lemma extract_rows_length root :
  length (extract_rows root) = length (findall "Transaction" root).
Proof. by rewrite extract_rows_fmap, length_fmap. Qed.

Lemma saved_buffer (data : list Byte.byte) :
  BytesIO_seek 0 (BytesIO_write data new_BytesIO) = {| getvalue := data; tell := 0 |}.
Proof.
  unfold BytesIO_seek, BytesIO_write. simpl. by rewrite drop_nil, app_nil_r.
Qed.

Lemma try_body_malformed xml_file e :
  ET_parse xml_file = Raise e → try_body xml_file = Raise e.
Proof. unfold try_body. by intros ->. Qed.

Lemma try_body_empty xml_file tree :
  ET_parse xml_file = Ok tree → extract_rows (getroot tree) = [] →
  try_body xml_file
  = Ok (None, "No transaction data found in XML file", 0).
Proof.
  unfold try_body. intros -> Hnil. rewrite bind_Ok. cbv zeta.
  by rewrite decide_True.
Qed.

Lemma try_body_rows xml_file tree :
  ET_parse xml_file = Ok tree → extract_rows (getroot tree) ≠ [] →
  try_body xml_file
  = wb ← build_workbook (extract_rows (getroot tree));
    Ok (Some {| getvalue := save_bytes wb; tell := 0 |}, "Success",
        length (extract_rows (getroot tree))).
Proof.
  unfold try_body. intros -> Hne. rewrite bind_Ok. cbv zeta.
  rewrite decide_False by exact Hne.
  destruct (build_workbook (extract_rows (getroot tree))) as [wb|e];
    [|reflexivity].
  rewrite !bind_Ok. unfold Workbook_save. by rewrite saved_buffer.
Qed.

(** The triple the handlers make of an exception. *)
Lemma handled e :
  match e with
  | ParseError msg => (None, "Invalid XML file: " +:+ exn_str (ParseError msg), 0)
  | _ => (None, "Error processing file: " +:+ exn_str e, 0)
  end
  = ((None, "Invalid XML file: " +:+ exn_str e, 0) : status)
  ∨ match e with
    | ParseError msg => (None, "Invalid XML file: " +:+ exn_str (ParseError msg), 0)
    | _ => (None, "Error processing file: " +:+ exn_str e, 0)
    end
    = ((None, "Error processing file: " +:+ exn_str e, 0) : status).
Proof. destruct e; auto. Qed.

(** The ways a call ends, by what the parser, the extractor and the table
    writer did. *)
Lemma parse_xml_to_excel_cases xml_file :
  (∃ tree wb, ET_parse xml_file = Ok tree
     ∧ extract_rows (getroot tree) ≠ []
     ∧ build_workbook (extract_rows (getroot tree)) = Ok wb
     ∧ parse_xml_to_excel xml_file
       = (Some {| getvalue := save_bytes wb; tell := 0 |}, "Success",
          length (extract_rows (getroot tree))))
  ∨ (∃ tree, ET_parse xml_file = Ok tree
     ∧ extract_rows (getroot tree) = []
     ∧ parse_xml_to_excel xml_file
       = (None, "No transaction data found in XML file", 0))
  ∨ (∃ detail, ET_parse xml_file = Raise (ParseError detail)
     ∧ parse_xml_to_excel xml_file
       = (None, "Invalid XML file: " +:+ detail, 0))
  ∨ (∃ e, ET_parse xml_file = Raise e
     ∧ (∀ detail, e ≠ ParseError detail)
     ∧ parse_xml_to_excel xml_file
       = (None, "Error processing file: " +:+ exn_str e, 0))
  ∨ (∃ tree e, ET_parse xml_file = Ok tree
     ∧ extract_rows (getroot tree) ≠ []
     ∧ build_workbook (extract_rows (getroot tree)) = Raise e
     ∧ (parse_xml_to_excel xml_file
        = (None, "Invalid XML file: " +:+ exn_str e, 0)
        ∨ parse_xml_to_excel xml_file
          = (None, "Error processing file: " +:+ exn_str e, 0))).
Proof.
  unfold parse_xml_to_excel.
  destruct (ET_parse xml_file) as [tree|e] eqn:Hparse.
  - destruct (decide (extract_rows (getroot tree) = [])) as [Hnil|Hne].
    + right; left. exists tree.
      by rewrite (try_body_empty xml_file tree Hparse Hnil).
    + rewrite (try_body_rows xml_file tree Hparse Hne).
      destruct (build_workbook (extract_rows (getroot tree))) as [wb|e]
        eqn:Hwb.
      * left. exists tree, wb. rewrite bind_Ok.
        repeat split; assumption || reflexivity.
      * do 4 right. exists tree, e. rewrite bind_Raise.
        split; [reflexivity|]. split; [exact Hne|]. split; [exact Hwb|].
        apply handled.
  - rewrite (try_body_malformed xml_file e Hparse).
    destruct e; first [ right; right; left; eexists; split; reflexivity
                      | right; right; right; left; eexists; repeat split;
                        intros ? [=] ].
Qed.

(** ** Trees of well-formed documents *)

Lemma xml_characters_text e : xml_characters e = true → xml_value (text e) = true.
Proof. destruct e as [tg tx cs]. simpl. by intros [? _]%andb_prop. Qed.

Lemma xml_characters_child e c :
  xml_characters e = true → c ∈ children e → xml_characters c = true.
Proof.
  destruct e as [tg tx cs]. simpl. intros [_ Hcs]%andb_prop Hc.
  induction cs as [|c0 cs IH]; [by apply elem_of_nil in Hc|].
  apply andb_prop in Hcs as [Hc0 Hcs].
  apply elem_of_cons in Hc as [->|Hc]; [done|by apply IH].
Qed.

Lemma field_text_xml t name :
  xml_characters t = true → xml_value (field_text t name) = true.
Proof.
  intros Ht. unfold field_text, find, findall.
  destruct (filter _ _) as [|e l] eqn:Hf; [done|]. simpl.
  assert (He : e ∈ filter (λ e, tag e = name) (children t))
    by (rewrite Hf; apply list_elem_of_here).
  apply list_elem_of_filter in He as [_ He].
  apply xml_characters_text. by apply (xml_characters_child t).
Qed.

Lemma make_record_xml t : xml_characters t = true → xml_record (make_record t).
Proof.
  intros Ht item Hitem. rewrite make_record_zip in Hitem.
  apply list_elem_of_lookup in Hitem as [j Hj].
  apply lookup_zip_with_Some in Hj as (h & v & -> & _ & Hv).
  rewrite list_lookup_fmap in Hv. apply fmap_Some in Hv as (name & _ & ->).
  by apply field_text_xml.
Qed.

Lemma extract_rows_xml root :
  xml_characters root = true → Forall xml_record (extract_rows root).
Proof.
  intros Hroot. rewrite extract_rows_fmap. apply Forall_fmap, Forall_forall.
  intros t Ht. apply make_record_xml. unfold findall in Ht.
  apply list_elem_of_filter in Ht as [_ Ht].
  by apply (xml_characters_child root).
Qed.

(** ** Success and what it implies *)

Lemma parse_ok xml_file tree :
  ET_parse xml_file = Ok tree →
  1 ≤ length (findall "Transaction" (getroot tree)) →
  length (findall "Transaction" (getroot tree)) + 1 ≤ MAX_ROW →
  xml_characters (getroot tree) = true →
  ∃ wb, build_workbook (extract_rows (getroot tree)) = Ok wb
    ∧ parse_xml_to_excel xml_file
      = (Some {| getvalue := save_bytes wb; tell := 0 |}, "Success",
         length (findall "Transaction" (getroot tree))).
Proof.
  intros Hparse Hn Hfit Hxml.
  destruct (build_workbook_succeeds (extract_rows (getroot tree)))
    as [wb Hwb].
  { apply extract_rows_complete. }
  { by apply extract_rows_xml. }
  { by rewrite extract_rows_length. }
  exists wb. split; [exact Hwb|].
  unfold parse_xml_to_excel. rewrite (try_body_rows xml_file tree Hparse).
  - by rewrite Hwb, bind_Ok, extract_rows_length.
  - intros Hnil. apply (f_equal length) in Hnil.
    rewrite extract_rows_length in Hnil. simpl in Hnil. lia.
Qed.

(** With 1048576 direct [Transaction] children or more the table writer
    raises and the second handler answers. *)
Lemma parse_overflow xml_file tree :
  ET_parse xml_file = Ok tree →
  MAX_ROW ≤ length (findall "Transaction" (getroot tree)) →
  xml_characters (getroot tree) = true →
  parse_xml_to_excel xml_file
  = (None,
     "Error processing file: Row numbers must be between 1 and 1048576. "
     +:+ "Row number supplied was 1048577", 0).
Proof.
  intros Hparse Hn Hxml.
  unfold parse_xml_to_excel. rewrite (try_body_rows xml_file tree Hparse).
  - rewrite build_workbook_overflow.
    + rewrite bind_Raise. cbn [exn_str]. by rewrite pretty_row_limit.
    + apply extract_rows_complete.
    + by apply extract_rows_xml.
    + by rewrite extract_rows_length.
  - intros Hnil. apply (f_equal length) in Hnil.
    rewrite extract_rows_length in Hnil. cbn [length] in Hnil.
    pose proof MAX_ROW_pos. lia.
Qed.

Lemma parse_success_inv xml_file buf msg n :
  parse_xml_to_excel xml_file = (Some buf, msg, n) →
  ∃ tree wb, ET_parse xml_file = Ok tree
    ∧ build_workbook (extract_rows (getroot tree)) = Ok wb
    ∧ buf = {| getvalue := save_bytes wb; tell := 0 |}
    ∧ msg = "Success"
    ∧ n = length (extract_rows (getroot tree))
    ∧ 1 ≤ n.
Proof.
  intros Hret.
  destruct (parse_xml_to_excel_cases xml_file)
    as [(tree & wb & Hp & Hne & Hwb & Hret')
       |[(tree & _ & _ & Hret')
        |[(d & _ & Hret')
         |[(e & _ & _ & Hret')|(tree & e & _ & _ & _ & [Hret'|Hret'])]]]];
    rewrite Hret' in Hret; try discriminate Hret.
  injection Hret as <- <- <-. exists tree, wb.
  repeat split; try assumption || reflexivity.
  destruct (extract_rows (getroot tree)); [by destruct Hne|simpl; lia].
Qed.

(** ** What a successful call built *)

Lemma parse_success_sheet xml_file buf msg n :
  parse_xml_to_excel xml_file = (Some buf, msg, n) →
  ∃ tree wb, ET_parse xml_file = Ok tree
    ∧ build_workbook (extract_rows (getroot tree)) = Ok wb
    ∧ buf = {| getvalue := save_bytes wb; tell := 0 |}
    ∧ msg = "Success"
    ∧ n = length (extract_rows (getroot tree))
    ∧ 1 ≤ n
    ∧ (∀ r c, cells (active wb) !! (r, c) = grid (extract_rows (getroot tree)) r c)
    ∧ (∀ j l col, letters !! j = Some l → columns (active wb) !! j = Some col →
         column_dimensions (active wb) !! l = Some (col_width col))
    ∧ (∀ l, l ∉ letters → column_dimensions (active wb) !! l = None).
Proof.
  intros Hret.
  destruct (parse_success_inv xml_file buf msg n Hret)
    as (tree & wb & Hp & Hwb & Hbuf & Hmsg & Hlen & Hn).
  destruct (build_workbook_spec (extract_rows (getroot tree)) wb
              (extract_rows_complete _) Hwb) as (_ & Hg & Hw & Hnw).
  exists tree, wb. repeat split; assumption.
Qed.

Lemma sheet_column_width batch ws j col :
  (∀ r c, cells ws !! (r, c) = grid batch r c) →
  columns ws !! j = Some col →
  col = (λ r, get_cell ws r (j + 1)) <$> seq 1 (length batch + 1)
  ∧ (∃ h, headers !! j = Some h ∧ head col = Some (header_cell (j + 1) h))
  ∧ col_width col = (maxLen col + 2) `min` 50
  ∧ 6 ≤ col_width col ≤ 50.
Proof.
  intros Hg Hcol.
  destruct (sheet_column_lookup batch ws j col Hg Hcol) as [Hj ->].
  destruct (lookup_lt_is_Some_2 headers j) as [h Hh]; [simpl; lia|].
  assert (Hlen : 4 ≤ String.length h).
  { apply header_lengths. by apply list_elem_of_lookup_2 with j. }
  rewrite !Nat.add_1_r. split; [done|].
  cbn [seq fmap list_fmap head].
  rewrite (sheet_header_cell batch ws j h Hg Hh).
  split; [by exists h|].
  unfold col_width.
  rewrite (scan_column _ _ h) by done.
  split; [done|].
  unfold maxLen. cbn [max_list_with].
  change (str_len (header_cell (S j) h)) with (String.length h). lia.
Qed.

(** * The specification's claims *)

(** C1, as amended. When the parser delivers a tree of XML characters
    whose root has N direct [Transaction] children, with N at least 1 and
    at most 1048575, the batch is one record per such child in document
    order, and the call succeeds with a sheet of exactly N + 1 rows and 19
    columns: row 1 holds the headers, row i + 2 holds record i, and value
    j of a record sits in column j + 1, cut to its first 32767 characters
    if it is longer, the record's keys being the headers in their fixed
    order. *)
Theorem parse_xml_to_excel_rows xml_file tree :
  ET_parse xml_file = Ok tree →
  1 ≤ length (findall "Transaction" (getroot tree)) →
  length (findall "Transaction" (getroot tree)) + 1 ≤ MAX_ROW →
  xml_characters (getroot tree) = true →
  extract_rows (getroot tree)
    = make_record <$> findall "Transaction" (getroot tree)
  ∧ length (extract_rows (getroot tree))
    = length (findall "Transaction" (getroot tree))
  ∧ ∃ wb,
      build_workbook (extract_rows (getroot tree)) = Ok wb
      ∧ parse_xml_to_excel xml_file
        = (Some {| getvalue := save_bytes wb; tell := 0 |}, "Success",
           length (findall "Transaction" (getroot tree)))
      ∧ max_row (active wb)
        = length (findall "Transaction" (getroot tree)) + 1
      ∧ max_column (active wb) = 19
      ∧ (∀ r c, is_Some (cells (active wb) !! (r, c))
           ↔ 1 ≤ r ≤ length (findall "Transaction" (getroot tree)) + 1
             ∧ 1 ≤ c ≤ 19)
      ∧ (∀ j h, headers !! j = Some h →
           cell_value <$> cells (active wb) !! (1, j + 1) = Some (PyStr h))
      ∧ (∀ i data, extract_rows (getroot tree) !! i = Some data →
           data.*1 = headers
           ∧ ∀ j v, data.*2 !! j = Some v →
               cell_value <$> cells (active wb) !! (i + 2, j + 1)
               = Some (stored v)
               ∧ (String.length (py_str v) ≤ MAX_STRING → stored v = v)).
Proof.
  intros Hparse Hn Hfit Hxml.
  split; [apply extract_rows_fmap|]. split; [apply extract_rows_length|].
  destruct (parse_ok xml_file tree Hparse Hn Hfit Hxml) as (wb & Hwb & Hret).
  destruct (build_workbook_spec _ wb (extract_rows_complete _) Hwb)
    as (_ & Hg & _).
  exists wb. split; [exact Hwb|]. split; [exact Hret|]. clear Hwb Hret.
  rewrite <- (extract_rows_length (getroot tree)).
  split; [exact (sheet_max_row _ _ Hg)|].
  split; [exact (sheet_max_column _ _ Hg)|].
  split; [intros r c; by rewrite Hg, grid_is_Some|].
  split.
  - intros j h Hh. rewrite Hg, Nat.add_1_r. simpl grid. by rewrite Hh.
  - intros i data Hi.
    assert (Ht : ∃ t, data = make_record t).
    { rewrite extract_rows_fmap, list_lookup_fmap in Hi.
      apply fmap_Some in Hi as (t & _ & ->). by exists t. }
    destruct Ht as [t ->]. split; [apply make_record_keys|].
    intros j v Hv. rewrite list_lookup_fmap in Hv.
    apply fmap_Some in Hv as ([k v'] & Hkv & ->).
    apply record_item in Hkv as [Hh Hval]. split.
    + rewrite Hg. replace (i + 2) with (S (S i)) by lia. rewrite Nat.add_1_r.
      simpl grid. rewrite Hi. simpl. rewrite Hh. simpl. by rewrite Hval.
    + simpl. destruct v' as [|s]; [done|]. simpl. intros Hlen.
      by rewrite substring_all.
Qed.

(** C2, as amended. A field element that is present keeps the text the
    parser reports for it: for an element without character data that is
    [None], not the empty string, so the record differs from the one built
    when the element is absent. *)
Theorem present_empty_field_is_None transaction j name header e :
  field_tags !! j = Some name → headers !! j = Some header →
  find name transaction = Some e → text e = PyNone →
  make_record transaction !! j = Some (header, PyNone)
  ∧ dict_get (make_record transaction) header = Ok PyNone
  ∧ dict_get (make_record transaction) header ≠ Ok (PyStr "").
Proof.
  intros Hn Hh Hfind Htext.
  assert (Hj : make_record transaction !! j = Some (header, PyNone)).
  { rewrite (make_record_lookup transaction j name header Hn Hh).
    unfold field_text. by rewrite Hfind, Htext. }
  assert (Hget : dict_get (make_record transaction) header = Ok PyNone).
  { apply (dict_get_lookup _ j); [|exact Hj].
    rewrite make_record_keys. apply headers_NoDup. }
  split; [exact Hj|]. split; [exact Hget|]. rewrite Hget. intros [=].
Qed.

(** C3. In every spreadsheet the call produces, each column is the header
    cell followed by every data cell, and its width is
    min(maxLen + 2, 50), maxLen being the greatest length of the
    stringified values of those cells. A cell whose value has no length
    leaves the running maximum as it is; the scan itself cannot fail. *)
Theorem column_width_formula xml_file buf msg n :
  parse_xml_to_excel xml_file = (Some buf, msg, n) →
  ∃ wb, getvalue buf = save_bytes wb
    ∧ length (columns (active wb)) = 19
    ∧ (∀ j col, columns (active wb) !! j = Some col →
         col = (λ r, get_cell (active wb) r (j + 1)) <$> seq 1 (n + 1)
         ∧ (∃ h, headers !! j = Some h ∧ head col = Some (header_cell (j + 1) h))
         ∧ ∃ l, get_column_letter (j + 1) = Ok l
             ∧ column_dimensions (active wb) !! l
               = Some ((maxLen col + 2) `min` 50))
    ∧ (∀ max_length cell e,
         py_len (cell_value cell) = Raise e → scan_cell max_length cell = max_length).
Proof.
  intros Hret.
  destruct (parse_success_sheet xml_file buf msg n Hret)
    as (tree & wb & _ & _ & -> & _ & -> & _ & Hg & Hw & _).
  clear Hret. exists wb. split; [done|].
  split; [by rewrite (sheet_columns _ _ Hg), length_fmap|].
  split.
  - intros j col Hcol.
    destruct (sheet_column_width _ _ j col Hg Hcol) as (Hc & Hh & Hwidth & _).
    split; [exact Hc|]. split; [exact Hh|].
    destruct (sheet_column_lookup _ _ j col Hg Hcol) as [Hj _].
    destruct (lookup_lt_is_Some_2 letters j) as [l Hl]; [simpl; lia|].
    exists l. rewrite Nat.add_1_r.
    split; [by apply get_column_letter_letters|].
    by rewrite (Hw j l col Hl Hcol), Hwidth.
  - intros m cell e Hlen. apply scan_cell_None.
    by destruct (cell_value cell).
Qed.

(** C4. When the parser delivers a tree whose root has no direct
    [Transaction] child, the call returns
    [(None, "No transaction data found in XML file", 0)]: there is no
    buffer, and no success triple. *)
Theorem no_transactions_NoData xml_file tree :
  ET_parse xml_file = Ok tree →
  length (findall "Transaction" (getroot tree)) = 0 →
  parse_xml_to_excel xml_file
    = (None, "No transaction data found in XML file", 0)
  ∧ ∀ buf msg n, parse_xml_to_excel xml_file ≠ (Some buf, msg, n).
Proof.
  intros Hparse Hzero.
  assert (Hnil : extract_rows (getroot tree) = []).
  { apply length_zero_iff_nil. by rewrite extract_rows_length. }
  assert (Hret : parse_xml_to_excel xml_file
                 = (None, "No transaction data found in XML file", 0)).
  { unfold parse_xml_to_excel.
    by rewrite (try_body_empty xml_file tree Hparse Hnil). }
  split; [exact Hret|]. intros buf msg n. rewrite Hret. intros [=].
Qed.

(** C5, as amended. When the parser raises [ParseError] the call returns
    [(None, "Invalid XML file: <detail>", 0)] with the parser's message as
    detail; and every call returns a triple of exactly one of the four
    shapes. *)
Theorem status_contract xml_file :
  (∀ detail, ET_parse xml_file = Raise (ParseError detail) →
     parse_xml_to_excel xml_file = (None, "Invalid XML file: " +:+ detail, 0))
  ∧ exists! k, has_kind (parse_xml_to_excel xml_file) k.
Proof.
  split.
  - intros detail Hparse. unfold parse_xml_to_excel.
    by rewrite (try_body_malformed xml_file _ Hparse).
  - destruct (parse_xml_to_excel_cases xml_file)
      as [(tree & wb & _ & _ & _ & ->)
         |[(tree & _ & _ & ->)
          |[(d & _ & ->)
           |[(e & _ & _ & ->)|(tree & e & _ & _ & _ & [-> | ->])]]]].
    + exists Success. split; [simpl; eauto|].
      intros [] Hk; simpl in Hk; [done|done|destruct Hk as [? [=]]..].
    + exists NoData. split; [done|].
      intros [] Hk; simpl in Hk;
        [destruct Hk as (? & ? & [=])|done|destruct Hk as [? [=]]..].
    + exists InvalidXML. split; [simpl; eauto|].
      intros [] Hk; simpl in Hk;
        [destruct Hk as (? & ? & [=])|discriminate Hk|done
        |destruct Hk as [? [=]]].
    + exists ProcessingError. split; [simpl; eauto|].
      intros [] Hk; simpl in Hk;
        [destruct Hk as (? & ? & [=])|discriminate Hk
        |destruct Hk as [? [=]]|done].
    + exists InvalidXML. split; [simpl; eauto|].
      intros [] Hk; simpl in Hk;
        [destruct Hk as (? & ? & [=])|discriminate Hk|done
        |destruct Hk as [? [=]]].
    + exists ProcessingError. split; [simpl; eauto|].
      intros [] Hk; simpl in Hk;
        [destruct Hk as (? & ? & [=])|discriminate Hk
        |destruct Hk as [? [=]]|done].
Qed.

(** C6. When a [Transaction] has no child carrying a field's tag, the
    record holds the empty string under that field's key: the key is there
    and its value is a [str], not [None]. *)
Theorem absent_field_empty_string transaction j name header :
  field_tags !! j = Some name → headers !! j = Some header →
  (∀ e, e ∈ children transaction → tag e ≠ name) →
  make_record transaction !! j = Some (header, PyStr "")
  ∧ dict_get (make_record transaction) header = Ok (PyStr "")
  ∧ dict_get (make_record transaction) header ≠ Ok PyNone.
Proof.
  intros Hn Hh Habs.
  assert (Hj : make_record transaction !! j = Some (header, PyStr "")).
  { rewrite (make_record_lookup transaction j name header Hn Hh).
    unfold field_text. by rewrite (find_absent name transaction Habs). }
  assert (Hget : dict_get (make_record transaction) header = Ok (PyStr "")).
  { apply (dict_get_lookup _ j); [|exact Hj].
    rewrite make_record_keys. apply headers_NoDup. }
  split; [exact Hj|]. split; [exact Hget|]. rewrite Hget. intros [=].
Qed.

(** C7. The batch is built from the direct children of the root that carry
    the tag [Transaction], one record each, in order. A direct child with
    another tag contributes nothing, whatever it contains: removing it with
    all its descendants leaves the batch unchanged. *)
Theorem findall_direct_children root :
  extract_rows root
    = make_record <$> filter (λ e, tag e = "Transaction") (children root)
  ∧ length (extract_rows root)
    = length (filter (λ e, tag e = "Transaction") (children root))
  ∧ ∀ before wrapper after,
      children root = before ++ wrapper :: after →
      tag wrapper ≠ "Transaction" →
      extract_rows root
        = extract_rows (Node (tag root) (text root) (before ++ after)).
Proof.
  split; [apply extract_rows_fmap|]. split; [apply extract_rows_length|].
  intros before wrapper after Hch Htag.
  rewrite !extract_rows_fmap. unfold findall. cbn [children].
  rewrite Hch, !filter_app, filter_cons_False by done. done.
Qed.

(** C8. For a root whose only child is a [Transaction] with the seven
    children of the scenario, the batch is the single record of the
    scenario: the seven values under their keys and the empty string under
    the other twelve. *)
Theorem round_trip_scenario root_tag root_text transaction_text :
  extract_rows
    (Node root_tag root_text
       [Node "Transaction" transaction_text scenario_fields])
    = [scenario_record]
  ∧ length (filter (λ item, item.2 = PyStr "") scenario_record) = 12
  ∧ scenario_record.*1 = headers.
Proof. repeat split. Qed.

(** C9, as amended. When the parser delivers a tree of XML characters
    whose root has N direct [Transaction] children, with N at least 1 and
    at most 1048575, building the workbook raises nothing and the call
    returns [(buffer, "Success", N)], the buffer holding the saved workbook
    and standing at position 0; the result is not an
    ["Error processing file"] triple. *)
Theorem table_writer_never_fails xml_file tree :
  ET_parse xml_file = Ok tree →
  1 ≤ length (findall "Transaction" (getroot tree)) →
  length (findall "Transaction" (getroot tree)) + 1 ≤ MAX_ROW →
  xml_characters (getroot tree) = true →
  (∃ wb buf,
     build_workbook (extract_rows (getroot tree)) = Ok wb
     ∧ parse_xml_to_excel xml_file
       = (Some buf, "Success", length (findall "Transaction" (getroot tree)))
     ∧ getvalue buf = save_bytes wb
     ∧ tell buf = 0)
  ∧ ∀ detail,
      parse_xml_to_excel xml_file
        ≠ (None, "Error processing file: " +:+ detail, 0).
Proof.
  intros Hparse Hn Hfit Hxml.
  destruct (parse_ok xml_file tree Hparse Hn Hfit Hxml) as (wb & Hwb & Hret).
  split.
  - exists wb, {| getvalue := save_bytes wb; tell := 0 |}.
    repeat split; assumption.
  - intros detail. rewrite Hret. intros [=].
Qed.

(** C10. In every spreadsheet the call produces, each of the 19 columns
    has a width, and every width lies between 6 and 50. *)
Theorem column_width_bounds xml_file buf msg n :
  parse_xml_to_excel xml_file = (Some buf, msg, n) →
  ∃ wb, getvalue buf = save_bytes wb
    ∧ (∀ j, j < 19 →
         ∃ l w, get_column_letter (j + 1) = Ok l
           ∧ column_dimensions (active wb) !! l = Some w
           ∧ 6 ≤ w ≤ 50)
    ∧ (∀ l w, column_dimensions (active wb) !! l = Some w → 6 ≤ w ≤ 50).
Proof.
  intros Hret.
  destruct (parse_success_sheet xml_file buf msg n Hret)
    as (tree & wb & _ & _ & -> & _ & -> & _ & Hg & Hw & Hnw).
  clear Hret. exists wb. split; [done|].
  assert (Hcols : ∀ j l, letters !! j = Some l →
            ∃ w, column_dimensions (active wb) !! l = Some w ∧ 6 ≤ w ≤ 50).
  { intros j l Hl.
    destruct (lookup_lt_is_Some_2 (columns (active wb)) j) as [col Hcol].
    { rewrite (sheet_columns _ _ Hg), length_fmap, length_seq.
      apply lookup_lt_Some in Hl. exact Hl. }
    destruct (sheet_column_width _ _ j col Hg Hcol) as (_ & _ & _ & Hb).
    exists (col_width col). split; [by apply (Hw j)|exact Hb]. }
  split.
  - intros j Hj.
    destruct (lookup_lt_is_Some_2 letters j) as [l Hl]; [simpl; lia|].
    destruct (Hcols j l Hl) as (w & Hlw & Hb).
    exists l, w. rewrite Nat.add_1_r.
    split; [by apply get_column_letter_letters|done].
  - intros l w Hlw. destruct (decide (l ∈ letters)) as [Hin|Hout].
    + apply list_elem_of_lookup in Hin as [j Hl].
      destruct (Hcols j l Hl) as (w' & Hlw' & Hb).
      rewrite Hlw in Hlw'. by injection Hlw' as <-.
    + rewrite (Hnw l Hout) in Hlw. discriminate Hlw.
Qed.

(** * Further properties of the converter *)

Lemma find_first name elem before e after :
  children elem = before ++ e :: after →
  tag e = name → (∀ b, b ∈ before → tag b ≠ name) →
  find name elem = Some e.
Proof.
  intros Hch Htag Hbefore. unfold find, findall. rewrite Hch, filter_app.
  assert (Hnil : filter (λ e0, tag e0 = name) before = []).
  { clear Hch. induction before as [|b before IH]; [done|].
    rewrite filter_cons_False by (apply Hbefore; apply list_elem_of_here).
    apply IH. intros b' Hb'. apply Hbefore. by apply list_elem_of_further. }
  rewrite Hnil. by rewrite filter_cons_True.
Qed.

Lemma field_tags_headers_length : length field_tags = length headers.
Proof. reflexivity. Qed.

Lemma make_record_ext t1 t2 :
  (∀ name, name ∈ field_tags → find name t1 = find name t2) →
  make_record t1 = make_record t2.
Proof.
  intros Hfind. rewrite !make_record_zip. f_equal.
  apply list_fmap_ext. intros j name Hname. unfold field_text.
  rewrite (Hfind name); [done|]. by apply list_elem_of_lookup_2 with j.
Qed.

(** Every record has the 19 header keys, so [data[header]] (line 143) has
    a value for every header, the one at the header's position. *)
Lemma record_lookup_header t j header :
  headers !! j = Some header →
  ∃ v, make_record t !! j = Some (header, v)
    ∧ dict_get (make_record t) header = Ok v.
Proof.
  intros Hh.
  destruct (lookup_lt_is_Some_2 field_tags j) as [name Hn].
  { rewrite field_tags_headers_length. by apply lookup_lt_Some in Hh. }
  exists (field_text t name).
  assert (Hj := make_record_lookup t j name header Hn Hh).
  split; [exact Hj|].
  apply (dict_get_lookup _ j); [|exact Hj].
  rewrite make_record_keys. apply headers_NoDup.
Qed.

(** X1. The sheet of every produced spreadsheet is titled "Transactions";
    its 19 header cells hold the labels in bold white on a solid 4472C4
    fill, and no cell below row 1 has a font or a fill assigned. *)
Theorem header_row_styled xml_file buf msg n :
  parse_xml_to_excel xml_file = (Some buf, msg, n) →
  ∃ wb, getvalue buf = save_bytes wb
    ∧ title (active wb) = "Transactions"
    ∧ (∀ j h, headers !! j = Some h →
         ∃ cell, cells (active wb) !! (1, j + 1) = Some cell
           ∧ cell_value cell = PyStr h
           ∧ font cell = Some {| bold := true; color := "FFFFFF" |}
           ∧ fill cell = Some {| start_color := "4472C4";
                                 end_color := "4472C4";
                                 fill_type := "solid" |})
    ∧ (∀ r c cell, 2 ≤ r → cells (active wb) !! (r, c) = Some cell →
         font cell = None ∧ fill cell = None).
Proof.
  intros Hret.
  destruct (parse_success_inv xml_file buf msg n Hret)
    as (tree & wb & _ & Hwb & -> & _ & _ & _).
  destruct (build_workbook_spec (extract_rows (getroot tree)) wb
              (extract_rows_complete _) Hwb) as (Ht & Hg & _).
  clear Hret Hwb.
  exists wb. split; [done|]. split; [exact Ht|]. split.
  - intros j h Hh. exists (header_cell (j + 1) h).
    split; [|done]. rewrite Hg, Nat.add_1_r. simpl grid. by rewrite Hh.
  - intros r c cell Hr. rewrite Hg.
    destruct r as [|[|i]]; [lia|lia|]. destruct c as [|j]; [done|].
    simpl grid. destruct (_ !! i); simpl; [|done].
    destruct (headers !! j); simpl; [|done].
    by intros [= <-].
Qed.

(** X2. When several children of a [Transaction] carry a field's tag, the
    record holds the text of the first of them in document order. *)
Theorem first_field_element_wins transaction j name header before e after :
  field_tags !! j = Some name → headers !! j = Some header →
  children transaction = before ++ e :: after →
  tag e = name → (∀ b, b ∈ before → tag b ≠ name) →
  make_record transaction !! j = Some (header, text e)
  ∧ dict_get (make_record transaction) header = Ok (text e).
Proof.
  intros Hn Hh Hch Htag Hbefore.
  assert (Hj : make_record transaction !! j = Some (header, text e)).
  { rewrite (make_record_lookup transaction j name header Hn Hh).
    unfold field_text.
    by rewrite (find_first name transaction before e after Hch Htag Hbefore). }
  split; [exact Hj|].
  apply (dict_get_lookup _ j); [|exact Hj].
  rewrite make_record_keys. apply headers_NoDup.
Qed.

(** X3. A child of a [Transaction] whose tag is none of the 19 field tags
    does not show in the record: with or without it, wherever it stands
    among the children, the record is the same. *)
Theorem unknown_child_ignored ttag ttext before extra after :
  tag extra ∉ field_tags →
  make_record (Node ttag ttext (before ++ extra :: after))
  = make_record (Node ttag ttext (before ++ after)).
Proof.
  intros Hextra. apply make_record_ext. intros name Hname.
  unfold find, findall. cbn [children].
  rewrite !filter_app, filter_cons_False; [done|].
  intros Heq. apply Hextra. by rewrite Heq.
Qed.

(** The four shapes exclude one another. *)
Lemma has_kind_unique (r : status) k1 k2 :
  has_kind r k1 → has_kind r k2 → k1 = k2.
Proof.
  destruct k1, k2; simpl; intros H1 H2; try reflexivity;
    repeat match goal with H : ∃ _, _ |- _ => destruct H as [? H] end;
    rewrite H1 in H2; discriminate H2.
Qed.

(** X4. For a parser that delivers trees of XML characters, which of the
    four triples a call returns is decided by the parser and the count of
    direct [Transaction] children alone: success exactly for a tree with
    at least one and at most 1048575, the no-data message exactly for a
    tree with none, the invalid-XML message exactly for a [ParseError], and
    the generic error exactly for any other exception of the parser or a
    tree with 1048576 or more. *)
Theorem status_by_parser_outcome xml_file :
  (∀ tree, ET_parse xml_file = Ok tree →
     xml_characters (getroot tree) = true) →
  (has_kind (parse_xml_to_excel xml_file) Success
   ↔ ∃ tree, ET_parse xml_file = Ok tree
       ∧ 1 ≤ length (findall "Transaction" (getroot tree))
       ∧ length (findall "Transaction" (getroot tree)) + 1 ≤ MAX_ROW)
  ∧ (has_kind (parse_xml_to_excel xml_file) NoData
     ↔ ∃ tree, ET_parse xml_file = Ok tree
         ∧ length (findall "Transaction" (getroot tree)) = 0)
  ∧ (has_kind (parse_xml_to_excel xml_file) InvalidXML
     ↔ ∃ detail, ET_parse xml_file = Raise (ParseError detail))
  ∧ (has_kind (parse_xml_to_excel xml_file) ProcessingError
     ↔ (∃ e, ET_parse xml_file = Raise e ∧ ∀ detail, e ≠ ParseError detail)
       ∨ (∃ tree, ET_parse xml_file = Ok tree
            ∧ MAX_ROW ≤ length (findall "Transaction" (getroot tree)))).
Proof.
  intros Hxml. pose proof MAX_ROW_pos as Hpos.
  assert (Hkind : ∀ k1 k2, has_kind (parse_xml_to_excel xml_file) k1 →
            has_kind (parse_xml_to_excel xml_file) k2 → k1 = k2)
    by (intros k1 k2; apply has_kind_unique).
  assert (Hcases :
    ∃ k, has_kind (parse_xml_to_excel xml_file) k
      ∧ match k with
        | Success =>
            ∃ tree, ET_parse xml_file = Ok tree
              ∧ 1 ≤ length (findall "Transaction" (getroot tree))
              ∧ length (findall "Transaction" (getroot tree)) + 1 ≤ MAX_ROW
        | NoData =>
            ∃ tree, ET_parse xml_file = Ok tree
              ∧ length (findall "Transaction" (getroot tree)) = 0
        | InvalidXML => ∃ detail, ET_parse xml_file = Raise (ParseError detail)
        | ProcessingError =>
            (∃ e, ET_parse xml_file = Raise e
               ∧ ∀ detail, e ≠ ParseError detail)
            ∨ (∃ tree, ET_parse xml_file = Ok tree
                 ∧ MAX_ROW ≤ length (findall "Transaction" (getroot tree)))
        end).
  { destruct (ET_parse xml_file) as [tree|e] eqn:Hparse.
    - specialize (Hxml tree eq_refl).
      destruct (decide (length (findall "Transaction" (getroot tree)) = 0))
        as [Hzero|Hsome].
      + exists NoData. split; [|by exists tree].
        assert (Hnil : extract_rows (getroot tree) = []).
        { apply length_zero_iff_nil. by rewrite extract_rows_length. }
        unfold parse_xml_to_excel.
        by rewrite (try_body_empty xml_file tree Hparse Hnil).
      + destruct (decide (length (findall "Transaction" (getroot tree)) + 1
                          ≤ MAX_ROW)) as [Hfit|Hover].
        * exists Success.
          destruct (parse_ok xml_file tree Hparse) as (wb & _ & ->);
            [lia|exact Hfit|exact Hxml|].
          split; [simpl; eauto|]. exists tree. repeat split; [lia|exact Hfit].
        * exists ProcessingError.
          rewrite (parse_overflow xml_file tree Hparse); [|lia|exact Hxml].
          split; [simpl; eauto|]. right. exists tree. split; [done|lia].
    - destruct (parse_xml_to_excel_cases xml_file)
        as [(tree & wb & Hp & _)
           |[(tree & Hp & _)
            |[(d & Hp & Hret)
             |[(e' & Hp & He & Hret)|(tree & e' & Hp & _)]]]];
        rewrite Hparse in Hp; try discriminate Hp; rewrite Hret.
      + exists InvalidXML. split; [simpl; eauto|]. by exists d.
      + exists ProcessingError. split; [simpl; eauto|]. left. by exists e'. }
  destruct Hcases as (k & Hk & Hcond).
  assert (Hone : ∀ tree tree', ET_parse xml_file = Ok tree →
            ET_parse xml_file = Ok tree' → tree = tree').
  { intros tree tree' H1 H2. rewrite H1 in H2. by injection H2. }
  assert (Hnot : ∀ tree e, ET_parse xml_file = Ok tree →
            ET_parse xml_file = Raise e → False).
  { intros tree e H1 H2. rewrite H1 in H2. discriminate H2. }
  assert (Hexn : ∀ e e', ET_parse xml_file = Raise e →
            ET_parse xml_file = Raise e' → e = e').
  { intros e e' H1 H2. rewrite H1 in H2. by injection H2. }
  destruct k; repeat split; intros H;
    try exact Hk; try exact Hcond;
    try (by discriminate (Hkind _ _ Hk H)); exfalso;
    repeat match goal with
           | H : _ ∨ _ |- _ => destruct H as [H|H]
           | H : ∃ _, _ |- _ => destruct H as [? H]
           | H : _ ∧ _ |- _ => destruct H as [? ?]
           end;
    repeat match goal with
           | H1 : ET_parse xml_file = Ok ?t, H2 : ET_parse xml_file = Ok ?t'
             |- _ => pose proof (Hone _ _ H1 H2); subst t'; clear H2
           | H1 : ET_parse xml_file = Ok _, H2 : ET_parse xml_file = Raise _
             |- _ => destruct (Hnot _ _ H1 H2)
           | H1 : ET_parse xml_file = Raise ?e,
             H2 : ET_parse xml_file = Raise ?e' |- _ =>
               pose proof (Hexn _ _ H1 H2); subst; clear H2
           end;
    try lia;
    match goal with
    | H : ∀ detail, ParseError _ ≠ ParseError detail |- _ => by eapply H
    end.
Qed.

(** X5. Whenever a call hands back a buffer, the message is "Success", the
    buffer stands at position 0 and holds the saved workbook, the count is
    at least 1 and is the number of direct [Transaction] children of the
    parsed root, and the sheet has one row more than the count. *)
Theorem buffer_means_success xml_file buf msg n :
  parse_xml_to_excel xml_file = (Some buf, msg, n) →
  msg = "Success" ∧ tell buf = 0 ∧ 1 ≤ n
  ∧ ∃ tree wb, ET_parse xml_file = Ok tree
      ∧ n = length (findall "Transaction" (getroot tree))
      ∧ build_workbook (extract_rows (getroot tree)) = Ok wb
      ∧ getvalue buf = save_bytes wb
      ∧ max_row (active wb) = n + 1.
Proof.
  intros Hret.
  destruct (parse_success_sheet xml_file buf msg n Hret)
    as (tree & wb & Hp & Hwb & -> & -> & Hn & Hpos & Hg & _).
  clear Hret. split; [done|]. split; [done|]. split; [exact Hpos|].
  exists tree, wb. split; [exact Hp|].
  split; [by rewrite Hn, extract_rows_length|]. split; [exact Hwb|].
  split; [done|]. rewrite Hn. exact (sheet_max_row _ _ Hg).
Qed.

(** The length the scan takes from a cell: that of a [str], nothing for
    [None]. *)
Lemma scan_cell_measured m cell :
  scan_cell m cell
  = m `max` match cell_value cell with
            | PyStr s => String.length s
            | PyNone => 0
            end.
Proof.
  destruct (cell_value cell) as [|s] eqn:Hv.
  - rewrite scan_cell_None by done. lia.
  - by apply scan_cell_str.
Qed.

(** X6. For any column, the maximum the width scan ends with is the
    greatest length among the cells that hold a [str]: a cell holding
    [None] never changes it, neither when the comparison with the four
    characters of "None" fails nor when [len(None)] raises and the
    exception is swallowed. The width is that maximum plus 2, capped at
    50. *)
Theorem width_scan_ignores_None column :
  foldl scan_cell 0 column
  = max_list_with (λ cell, match cell_value cell with
                           | PyStr s => String.length s
                           | PyNone => 0
                           end) column
  ∧ col_width column
    = (max_list_with (λ cell, match cell_value cell with
                              | PyStr s => String.length s
                              | PyNone => 0
                              end) column + 2) `min` 50.
Proof.
  assert (Hscan : ∀ m,
    foldl scan_cell m column
    = m `max` max_list_with (λ cell, match cell_value cell with
                                     | PyStr s => String.length s
                                     | PyNone => 0
                                     end) column).
  { induction column as [|cell column IH]; intros m; simpl; [lia|].
    rewrite IH, scan_cell_measured. lia. }
  unfold col_width. rewrite (Hscan 0). simpl. done.
Qed.

(** X7. The batch follows the order of the root's children: the batch of
    a root is the batch of its first children followed by the batch of the
    rest, whatever the root's own tag and text. *)
Theorem extract_rows_app root_tag root_text root_tag' root_text' before after :
  extract_rows (Node root_tag root_text (before ++ after))
  = extract_rows (Node root_tag' root_text' before)
    ++ extract_rows (Node root_tag' root_text' after).
Proof.
  rewrite !extract_rows_fmap. unfold findall. cbn [children].
  by rewrite filter_app, fmap_app.
Qed.

(** ** Splitting a file name *)

Lemma rsplit_last_None sep s :
  sep ∉ String.list_ascii_of_string s → rsplit_last sep s = None.
Proof.
  induction s as [|a s IH]; [done|]. simpl. intros Hnotin.
  apply not_elem_of_cons in Hnotin as [Hne Hnotin].
  rewrite IH by done. by rewrite decide_False.
Qed.

Lemma rsplit_last_app sep base ext :
  sep ∉ String.list_ascii_of_string ext →
  rsplit_last sep (base +:+ String sep ext) = Some (base, ext).
Proof.
  intros Hext. induction base as [|a base IH].
  - change (EmptyString +:+ String sep ext) with (String sep ext).
    cbn [rsplit_last]. rewrite rsplit_last_None by done.
    by rewrite decide_True.
  - change (String a base +:+ String sep ext)
      with (String a (base +:+ String sep ext)).
    cbn [rsplit_last]. by rewrite IH.
Qed.

Lemma rsplit_last_Some sep s l r :
  rsplit_last sep s = Some (l, r) →
  s = l +:+ String sep r ∧ sep ∉ String.list_ascii_of_string r.
Proof.
  revert l. induction s as [|a s IH]; intros l; [done|]. cbn [rsplit_last].
  destruct (rsplit_last sep s) as [[l' r']|] eqn:Hs.
  - intros [= <- <-]. destruct (IH l' eq_refl) as [-> Hr]. done.
  - case_decide as Ha; [|done]. intros [= <- <-]. subst a. split; [done|].
    clear IH. induction s as [|b s IH]; [by apply not_elem_of_nil|].
    cbn [rsplit_last] in Hs. destruct (rsplit_last sep s) as [[??]|]; [done|].
    case_decide; [done|]. simpl. apply not_elem_of_cons. split; [done|].
    by apply IH.
Qed.

Lemma index0_rsplit1 sep s :
  ∃ original, index0 (rsplit1 sep s) = Ok original
    ∧ match rsplit_last sep s with
      | Some (l, _) => original = l
      | None => original = s
      end.
Proof.
  unfold rsplit1. destruct (rsplit_last sep s) as [[l r]|]; eauto.
Qed.

(** ** The time stamp *)

Lemma zero_padded_two_digits n : n < 100 → zero_padded 2 n = two_digits n.
Proof.
  intros Hn.
  assert (Hall : Forall (λ n, zero_padded 2 n = two_digits n) (seq 0 100))
    by (apply (bool_decide_unpack _); vm_compute; exact I).
  apply (proj1 (Forall_forall _ _) Hall). apply elem_of_seq. lia.
Qed.

Lemma MAXYEAR_eq : MAXYEAR = 9 * 1000 + 999.
Proof. reflexivity. Qed.

Lemma pretty_N_char_digit m : m < 10 → pretty_N_char (N.of_nat m) = digit m.
Proof. intros Hm. do 10 (destruct m as [|m]; [reflexivity|]). lia. Qed.

(** One step of the decimal printer, on [nat]. *)
Lemma pretty_N_go_digit m s :
  0 < m →
  pretty_N_go (N.of_nat m) s
  = pretty_N_go (N.of_nat (m `div` 10)) (String (digit (m `mod` 10)) s).
Proof.
  intros Hm. rewrite pretty_N_go_step by lia.
  change 10%N with (N.of_nat 10).
  rewrite <- Nat2N.inj_div, <- Nat2N.inj_mod.
  rewrite pretty_N_char_digit; [done|]. apply Nat.mod_upper_bound. lia.
Qed.

Lemma pretty_four_digits n : 1000 ≤ n ≤ MAXYEAR → pretty n = four_digits n.
Proof.
  rewrite MAXYEAR_eq. intros Hn.
  remember (n `div` 10) as q1 eqn:E1. remember (n `mod` 10) as r0 eqn:F0.
  remember (q1 `div` 10) as q2 eqn:E2. remember (q1 `mod` 10) as r1 eqn:F1.
  remember (q2 `div` 10) as q3 eqn:E3. remember (q2 `mod` 10) as r2 eqn:F2.
  remember (q3 `div` 10) as q4 eqn:E4. remember (q3 `mod` 10) as r3 eqn:F3.
  pose proof (Nat.div_mod_eq n 10) as H0.
  pose proof (Nat.mod_upper_bound n 10) as R0.
  pose proof (Nat.div_mod_eq q1 10) as H1.
  pose proof (Nat.mod_upper_bound q1 10) as R1.
  pose proof (Nat.div_mod_eq q2 10) as H2.
  pose proof (Nat.mod_upper_bound q2 10) as R2.
  pose proof (Nat.div_mod_eq q3 10) as H3.
  pose proof (Nat.mod_upper_bound q3 10) as R3.
  rewrite <- E1, <- F0 in H0. rewrite <- F0 in R0.
  rewrite <- E2, <- F1 in H1. rewrite <- F1 in R1.
  rewrite <- E3, <- F2 in H2. rewrite <- F2 in R2.
  rewrite <- E4, <- F3 in H3. rewrite <- F3 in R3.
  unfold pretty, pretty_nat, pretty, pretty_N.
  rewrite decide_False by lia.
  rewrite (pretty_N_go_digit n), <- E1, <- F0 by lia.
  rewrite (pretty_N_go_digit q1), <- E2, <- F1 by lia.
  rewrite (pretty_N_go_digit q2), <- E3, <- F2 by lia.
  rewrite (pretty_N_go_digit q3), <- E4, <- F3 by lia.
  assert (q4 = 0) as -> by lia. rewrite pretty_N_go_0.
  unfold four_digits, two_digits.
  assert (n `mod` 100 = 10 * r1 + r0) as ->.
  { symmetry. apply (Nat.mod_unique n 100 q2); lia. }
  rewrite <- (Nat.div_unique n 1000 q3 (100 * r2 + 10 * r1 + r0)) by lia.
  rewrite <- (Nat.div_unique n 100 q2 (10 * r1 + r0)) by lia.
  rewrite <- F2.
  rewrite <- (Nat.div_unique (10 * r1 + r0) 10 r1 r0) by lia.
  rewrite <- (Nat.mod_unique (10 * r1 + r0) 10 r1 r0) by lia.
  assert (q3 = r3) as -> by lia. reflexivity.
Qed.

Lemma zero_padded_four_digits n :
  1000 ≤ n ≤ MAXYEAR → zero_padded 4 n = four_digits n.
Proof.
  intros Hn. unfold zero_padded. by rewrite (pretty_four_digits n Hn).
Qed.

Lemma timestamp_digits t :
  valid_datetime t →
  strftime "%Y%m%d_%H%M%S" t
  = four_digits (year t) +:+ two_digits (month t) +:+ two_digits (day t)
    +:+ "_" +:+ two_digits (hour t) +:+ two_digits (minute t)
    +:+ two_digits (second t).
Proof.
  intros (Hy & Hm & Hd & HH & HM & HS).
  change (strftime "%Y%m%d_%H%M%S" t)
    with (zero_padded 4 (year t) +:+ zero_padded 2 (month t)
          +:+ zero_padded 2 (day t) +:+ "_" +:+ zero_padded 2 (hour t)
          +:+ zero_padded 2 (minute t) +:+ zero_padded 2 (second t)
          +:+ EmptyString).
  rewrite (zero_padded_four_digits (year t)) by exact Hy.
  rewrite !zero_padded_two_digits by lia.
  reflexivity.
Qed.







(** ** One run of the page *)

Lemma main_no_file clicked now :
  main None clicked now = Ok (page_top ++ page_bottom).
Proof. reflexivity. Qed.

Lemma main_not_clicked f now :
  main (Some f) false now
  = Ok (page_top ++ file_details (file_name f) (format_kb (file_size f))
        ++ page_bottom).
Proof. reflexivity. Qed.

Lemma main_success f now buf msg n :
  parse_xml_to_excel f = (Some buf, msg, n) →
  ∃ original,
    index0 (rsplit1 "." (file_name f)) = Ok original
    ∧ main (Some f) true now
      = Ok (page_top ++ file_details (file_name f) (format_kb (file_size f))
            ++ [ st_spinner "Processing your file...";
                 st_markdown (success_box n) true;
                 st_download_button "📥 Download Excel File" buf
                   (download_name_of original now) xlsx_mime "primary";
                 st_balloons ]
            ++ page_bottom).
Proof.
  intros Hret.
  destruct (index0_rsplit1 "." (file_name f)) as (original & Horig & _).
  exists original. split; [exact Horig|].
  unfold main. rewrite Hret. cbv zeta. rewrite Horig. reflexivity.
Qed.

Lemma main_failure f now msg n :
  parse_xml_to_excel f = (None, msg, n) →
  main (Some f) true now
  = Ok (page_top ++ file_details (file_name f) (format_kb (file_size f))
        ++ [ st_spinner "Processing your file..."; st_error ("❌ " +:+ msg) ]
        ++ page_bottom).
Proof. intros Hret. unfold main. rewrite Hret. reflexivity. Qed.

Lemma page_top_plain el :
  el ∈ page_top → ¬ is_download_button el ∧ ¬ is_error el.
Proof.
  unfold page_top. intros Hin.
  repeat (apply elem_of_cons in Hin as [->|Hin]; [by split; intros []|]).
  by apply elem_of_nil in Hin.
Qed.

Lemma page_bottom_plain el :
  el ∈ page_bottom → ¬ is_download_button el ∧ ¬ is_error el.
Proof.
  unfold page_bottom. intros Hin.
  repeat (apply elem_of_cons in Hin as [->|Hin]; [by split; intros []|]).
  by apply elem_of_nil in Hin.
Qed.

Lemma file_details_plain name kb el :
  el ∈ file_details name kb → ¬ is_download_button el ∧ ¬ is_error el.
Proof.
  unfold file_details. intros Hin.
  repeat (apply elem_of_cons in Hin as [->|Hin]; [by split; intros []|]).
  by apply elem_of_nil in Hin.
Qed.

(** X8. For an instant with a four-digit year the time stamp of the
    download name is the year, month, day, an underscore, hour, minute and
    second, each zero-padded to its width: 15 characters in all. *)
Theorem timestamp_shape now :
  valid_datetime now →
  strftime "%Y%m%d_%H%M%S" now
  = four_digits (year now) +:+ two_digits (month now)
    +:+ two_digits (day now) +:+ "_" +:+ two_digits (hour now)
    +:+ two_digits (minute now) +:+ two_digits (second now)
  ∧ String.length (strftime "%Y%m%d_%H%M%S" now) = 15.
Proof.
  intros Hv. rewrite (timestamp_digits now Hv). split; reflexivity.
Qed.


(** X10. The part of the upload's name before its last dot is what the
    download name starts with; a name without a dot is taken whole. The
    lookup of element 0 of the split never fails. *)
Theorem original_name_before_last_dot name :
  (∃ original_name,
     index0 (rsplit1 "." name) = Ok original_name
     ∧ ((("."%char ∉ String.list_ascii_of_string name)
         ∧ original_name = name)
        ∨ (∃ ext, name = original_name +:+ "." +:+ ext
             ∧ ("."%char ∉ String.list_ascii_of_string ext))))
  ∧ (∀ base ext,
       name = base +:+ "." +:+ ext →
       ("."%char ∉ String.list_ascii_of_string ext) →
       index0 (rsplit1 "." name) = Ok base).
Proof.
  split.
  - unfold rsplit1. destruct (rsplit_last "." name) as [[l r]|] eqn:Hsplit.
    + exists l. split; [done|]. right. exists r.
      by apply rsplit_last_Some in Hsplit.
    + exists name. split; [done|]. left. split; [|done].
      intros Hin. clear -Hsplit Hin.
      induction name as [|a name IH]; [by apply elem_of_nil in Hin|].
      cbn [rsplit_last] in Hsplit.
      destruct (rsplit_last "." name) as [[??]|]; [done|].
      case_decide as Ha; [done|].
      simpl in Hin. apply elem_of_cons in Hin as [<-|Hin]; [done|].
      by apply IH.
  - intros base ext -> Hext. unfold rsplit1.
    change (base +:+ "." +:+ ext) with (base +:+ String "." ext).
    by rewrite (rsplit_last_app "." base ext Hext).
Qed.

(** X11. When the button is clicked on an uploaded file that parses to a
    tree of XML characters with N direct [Transaction] children, N at
    least 1 and at most 1048575, the page shows, after the file's details,
    the spinner, the success box with the count N, a download button
    carrying the saved workbook rewound to position 0 under the computed
    name and the spreadsheet MIME type, and the balloons; nothing else
    comes before the footer. *)
Theorem main_offers_download f tree now :
  ET_parse f = Ok tree →
  1 ≤ length (findall "Transaction" (getroot tree)) →
  length (findall "Transaction" (getroot tree)) + 1 ≤ MAX_ROW →
  xml_characters (getroot tree) = true →
  ∃ wb original_name,
    build_workbook (extract_rows (getroot tree)) = Ok wb
    ∧ index0 (rsplit1 "." (file_name f)) = Ok original_name
    ∧ main (Some f) true now
      = Ok (page_top ++ file_details (file_name f) (format_kb (file_size f))
            ++ [ st_spinner "Processing your file...";
                 st_markdown
                   (success_box (length (findall "Transaction" (getroot tree))))
                   true;
                 st_download_button "📥 Download Excel File"
                   {| getvalue := save_bytes wb; tell := 0 |}
                   (original_name +:+ "_transactions_"
                    +:+ strftime "%Y%m%d_%H%M%S" now +:+ ".xlsx")
                   "application/vnd.openxmlformats-officedocument.spreadsheetml.sheet"
                   "primary";
                 st_balloons ]
            ++ page_bottom).
Proof.
  intros Hparse Hn Hfit Hxml.
  destruct (parse_ok f tree Hparse Hn Hfit Hxml) as (wb & Hwb & Hret).
  destruct (main_success f now _ _ _ Hret) as (original & Horig & Hmain).
  exists wb, original. split; [exact Hwb|]. split; [exact Horig|].
  exact Hmain.
Qed.

(** X12. When the button is clicked and the converter returns no buffer,
    the page shows the spinner and one error line, the cross mark followed
    by the converter's message, and no download button; the message is one
    of the three failure messages. *)
Theorem main_reports_failure f now msg n :
  parse_xml_to_excel f = (None, msg, n) →
  main (Some f) true now
  = Ok (page_top ++ file_details (file_name f) (format_kb (file_size f))
        ++ [ st_spinner "Processing your file..."; st_error ("❌ " +:+ msg) ]
        ++ page_bottom)
  ∧ (msg = "No transaction data found in XML file"
     ∨ (∃ detail, msg = "Invalid XML file: " +:+ detail)
     ∨ (∃ detail, msg = "Error processing file: " +:+ detail)).
Proof.
  intros Hret. split; [by apply main_failure with n|].
  destruct (parse_xml_to_excel_cases f)
    as [(tree & wb & _ & _ & _ & Hret')
       |[(tree & _ & _ & Hret')
        |[(d & _ & Hret')
         |[(e & _ & _ & Hret')|(tree & e & _ & _ & _ & [Hret'|Hret'])]]]];
    rewrite Hret' in Hret; try discriminate Hret;
    injection Hret as <- <-; eauto.
Qed.

(** X13. With a parser that delivers trees of XML characters, a run of
    the page never raises. It offers a download exactly when a file is
    uploaded, the button was clicked and the file parses to a tree with at
    least one and at most 1048575 direct [Transaction] children; it shows
    an error line exactly when a file is uploaded, the button was clicked
    and the converter returned no buffer. *)
Theorem results_only_on_click uploaded_file clicked now :
  (∀ f tree, uploaded_file = Some f → ET_parse f = Ok tree →
     xml_characters (getroot tree) = true) →
  ∃ page, main uploaded_file clicked now = Ok page
    ∧ ((∃ el, el ∈ page ∧ is_download_button el)
       ↔ ∃ f tree, uploaded_file = Some f ∧ clicked = true
           ∧ ET_parse f = Ok tree
           ∧ 1 ≤ length (findall "Transaction" (getroot tree))
           ∧ length (findall "Transaction" (getroot tree)) + 1 ≤ MAX_ROW)
    ∧ ((∃ el, el ∈ page ∧ is_error el)
       ↔ ∃ f msg n, uploaded_file = Some f ∧ clicked = true
           ∧ parse_xml_to_excel f = (None, msg, n)).
Proof.
  intros Hxml. pose proof MAX_ROW_pos as Hpos.
  destruct uploaded_file as [f|]; [destruct clicked|].
  - destruct (parse_xml_to_excel f) as [[[buf|] msg] n] eqn:Hret.
    + destruct (main_success f now buf msg n Hret) as (original & _ & Hmain).
      eexists. split; [exact Hmain|]. split; split.
      * intros _.
        destruct (parse_success_inv f buf msg n Hret)
          as (tree & wb & Hp & _ & _ & _ & Hlen & Hn).
        exists f, tree. split; [done|]. split; [done|]. split; [exact Hp|].
        rewrite <- extract_rows_length, <- Hlen. split; [exact Hn|].
        destruct (decide (n + 1 ≤ MAX_ROW)) as [Hfit|Hover]; [exact Hfit|].
        rewrite (parse_overflow f tree Hp) in Hret.
        { discriminate Hret. }
        { rewrite <- extract_rows_length, <- Hlen. lia. }
        { by apply (Hxml f). }
      * intros _. eexists. split.
        { apply elem_of_app. right. apply elem_of_app. right.
          apply elem_of_app. left. do 2 apply list_elem_of_further.
          apply list_elem_of_here. }
        exact I.
      * intros (el & Hin & Herr).
        apply elem_of_app in Hin as [Hin|Hin];
          [by destruct (page_top_plain el Hin)|].
        apply elem_of_app in Hin as [Hin|Hin];
          [by destruct (file_details_plain _ _ el Hin)|].
        apply elem_of_app in Hin as [Hin|Hin];
          [|by destruct (page_bottom_plain el Hin)].
        repeat (apply elem_of_cons in Hin as [->|Hin]; [by destruct Herr|]).
        by apply elem_of_nil in Hin.
      * intros (f' & msg' & n' & [= <-] & _ & Hret').
        rewrite Hret in Hret'. discriminate Hret'.
    + eexists. split; [exact (main_failure f now msg n Hret)|]. split; split.
      * intros (el & Hin & Hdl).
        apply elem_of_app in Hin as [Hin|Hin];
          [by destruct (page_top_plain el Hin)|].
        apply elem_of_app in Hin as [Hin|Hin];
          [by destruct (file_details_plain _ _ el Hin)|].
        apply elem_of_app in Hin as [Hin|Hin];
          [|by destruct (page_bottom_plain el Hin)].
        repeat (apply elem_of_cons in Hin as [->|Hin]; [by destruct Hdl|]).
        by apply elem_of_nil in Hin.
      * intros (f' & tree & [= <-] & _ & Hp & Hn & Hfit).
        destruct (parse_ok f tree Hp Hn Hfit (Hxml f tree eq_refl Hp))
          as (wb & _ & Hret').
        rewrite Hret in Hret'. discriminate Hret'.
      * intros _. by exists f, msg, n.
      * intros _. eexists. split.
        { apply elem_of_app. right. apply elem_of_app. right.
          apply elem_of_app. left. apply list_elem_of_further.
          apply list_elem_of_here. }
        exact I.
  - eexists. split; [exact (main_not_clicked f now)|]. split; split.
    + intros (el & Hin & Hdl).
      apply elem_of_app in Hin as [Hin|Hin];
        [by destruct (page_top_plain el Hin)|].
      apply elem_of_app in Hin as [Hin|Hin];
        [by destruct (file_details_plain _ _ el Hin)
        |by destruct (page_bottom_plain el Hin)].
    + by intros (f' & tree & _ & [=] & _).
    + intros (el & Hin & Herr).
      apply elem_of_app in Hin as [Hin|Hin];
        [by destruct (page_top_plain el Hin)|].
      apply elem_of_app in Hin as [Hin|Hin];
        [by destruct (file_details_plain _ _ el Hin)
        |by destruct (page_bottom_plain el Hin)].
    + by intros (f' & msg & n & _ & [=] & _).
  - eexists. split; [exact (main_no_file clicked now)|]. split; split.
    + intros (el & Hin & Hdl).
      apply elem_of_app in Hin as [Hin|Hin];
        [by destruct (page_top_plain el Hin)
        |by destruct (page_bottom_plain el Hin)].
    + by intros (f' & tree & [=] & _).
    + intros (el & Hin & Herr).
      apply elem_of_app in Hin as [Hin|Hin];
        [by destruct (page_top_plain el Hin)
        |by destruct (page_bottom_plain el Hin)].
    + by intros (f' & msg & n & [=] & _).
Qed.

End Converter.

(** * The sample documents *)

Lemma length_string_of_list_ascii l :
  String.length (String.string_of_list_ascii l) = length l.
Proof. induction l as [|a l IH]; simpl; [done|by rewrite IH]. Qed.

Lemma length_substring s : ∀ n,
  n ≤ String.length s → String.length (String.substring 0 n s) = n.
Proof.
  induction s as [|a s IH]; intros [|n] Hn; simpl in *; try done; [lia|].
  rewrite IH; [done|lia].
Qed.

Lemma forallb_replicate {X : Type} (p : X → bool) (x : X) n :
  p x = true → forallb p (replicate n x) = true.
Proof. intros Hx. induction n as [|n IH]; simpl; [done|by rewrite Hx]. Qed.

Lemma findall_replicate name e n :
  tag e = name → findall name (Node "Transactions" PyNone (replicate n e))
                 = replicate n e.
Proof.
  intros He. unfold findall. cbn [children].
  induction n as [|n IH]; [done|].
  cbn [replicate]. rewrite filter_cons_True by done. by rewrite IH.
Qed.

Lemma xml_characters_Node tg tx cs :
  xml_characters (Node tg tx cs) = xml_value tx && forallb xml_characters cs.
Proof. reflexivity. Qed.

Lemma long_text_length : String.length long_text = MAX_STRING + 1.
Proof.
  unfold long_text. by rewrite length_string_of_list_ascii, length_replicate.
Qed.

Lemma long_text_xml : xml_string long_text = true.
Proof.
  unfold xml_string, long_text.
  rewrite String.list_ascii_of_string_of_list_ascii.
  by apply forallb_replicate.
Qed.

Lemma xml_characters_single root tg name s :
  xml_string s = true →
  xml_characters (Node root PyNone [Node tg PyNone [leaf name s]]) = true.
Proof. intros Hs. rewrite !xml_characters_Node. simpl. by rewrite Hs. Qed.

Lemma long_tree_xml : xml_characters (getroot long_tree) = true.
Proof. exact (xml_characters_single _ _ _ _ long_text_xml). Qed.

Lemma crowded_tree_length :
  length (findall "Transaction" (getroot crowded_tree)) = MAX_ROW.
Proof.
  cbn [getroot crowded_tree]. unfold crowded_root.
  by rewrite findall_replicate, length_replicate.
Qed.

Lemma crowded_tree_xml : xml_characters (getroot crowded_tree) = true.
Proof.
  cbn [getroot crowded_tree]. unfold crowded_root.
  rewrite xml_characters_Node. cbn [xml_value andb].
  by apply forallb_replicate.
Qed.

Lemma sample_tree_fits :
  length (findall "Transaction" (getroot sample_tree)) + 1 ≤ MAX_ROW.
Proof.
  change (length (findall "Transaction" (getroot sample_tree))) with 2.
  pose proof MAX_ROW_eq. lia.
Qed.

Lemma grid_data_cell batch i data j h :
  batch !! i = Some data → headers !! j = Some h →
  grid batch (i + 2) (j + 1)
  = Some (data_cell (i + 2) (j + 1) (stored (dict_value data h))).
Proof.
  intros Hi Hh. replace (i + 2) with (S (S i)) by lia. rewrite Nat.add_1_r.
  simpl grid. rewrite Hi. simpl. by rewrite Hh.
Qed.

(** * The claims on the sample documents *)

(** C1, as the specification states it, fails: a [Title] of 32768
    characters is well-formed XML, the call succeeds, and the cell under
    "Title" in row 2 holds the first 32767 characters only, not the
    record's value. *)
Lemma long_value_is_cut :
  sample_parse (Ok long_tree) = Ok long_tree
  ∧ extract_rows (getroot long_tree) = [make_record long_transaction]
  ∧ (make_record long_transaction).*2 !! 11 = Some (PyStr long_text)
  ∧ String.length long_text = MAX_STRING + 1
  ∧ ∃ wb s,
      build_workbook (extract_rows (getroot long_tree)) = Ok wb
      ∧ parse_xml_to_excel sample_parse sample_save (Ok long_tree)
        = (Some {| getvalue := sample_save wb; tell := 0 |}, "Success", 1)
      ∧ cell_value <$> cells (active wb) !! (2, 12) = Some (PyStr s)
      ∧ String.length s = MAX_STRING
      ∧ PyStr s ≠ PyStr long_text.
Proof.
  split; [reflexivity|]. split; [reflexivity|]. split; [reflexivity|].
  split; [exact long_text_length|].
  destruct (parse_ok sample_parse sample_save (Ok long_tree) long_tree)
    as (wb & Hwb & Hret).
  { reflexivity. }
  { change (length (findall "Transaction" (getroot long_tree))) with 1. lia. }
  { change (length (findall "Transaction" (getroot long_tree))) with 1.
    pose proof MAX_ROW_eq. lia. }
  { exact long_tree_xml. }
  destruct (build_workbook_spec _ wb (extract_rows_complete _) Hwb)
    as (_ & Hg & _).
  assert (Hlen : String.length (String.substring 0 MAX_STRING long_text)
                 = MAX_STRING).
  { apply length_substring. rewrite long_text_length. lia. }
  exists wb, (String.substring 0 MAX_STRING long_text).
  split; [exact Hwb|]. split; [exact Hret|]. split; [|split; [exact Hlen|]].
  - rewrite Hg.
    by rewrite (grid_data_cell _ 0 (make_record long_transaction) 11 "Title").
  - intros Heq. assert (Hs : String.substring 0 MAX_STRING long_text
                             = long_text) by congruence.
    apply (f_equal String.length) in Hs.
    rewrite Hlen, long_text_length in Hs. lia.
Qed.

Lemma parse_xml_to_excel_rows_witness :
  sample_parse (Ok sample_tree) = Ok sample_tree
  ∧ 1 ≤ length (findall "Transaction" (getroot sample_tree))
  ∧ length (findall "Transaction" (getroot sample_tree)) + 1 ≤ MAX_ROW
  ∧ xml_characters (getroot sample_tree) = true
  ∧ ∃ wb, build_workbook (extract_rows (getroot sample_tree)) = Ok wb
      ∧ parse_xml_to_excel sample_parse sample_save (Ok sample_tree)
        = (Some {| getvalue := sample_save wb; tell := 0 |}, "Success", 2)
      ∧ max_row (active wb) = 3.
Proof.
  split; [reflexivity|]. split; [vm_compute; lia|].
  split; [exact sample_tree_fits|]. split; [reflexivity|].
  destruct (parse_xml_to_excel_rows sample_parse sample_save
              (Ok sample_tree) sample_tree)
    as (_ & _ & wb & Hwb & Hret & Hrows & _).
  - reflexivity.
  - vm_compute. lia.
  - exact sample_tree_fits.
  - reflexivity.
  - exists wb. split; [exact Hwb|]. split; [exact Hret|exact Hrows].
Defined.

(** C2, as the specification states it, fails: [<Title/>] inside a
    [Transaction] is present with no text, and the record holds [None]
    under "Title", not the empty string. *)
Lemma present_empty_field_not_empty_string :
  ¬ (∀ transaction j name header e,
       field_tags !! j = Some name → headers !! j = Some header →
       find name transaction = Some e → text e = PyNone →
       dict_get (make_record transaction) header = Ok (PyStr "")).
Proof.
  intros Hclaim.
  specialize (Hclaim empty_title 11 "Title" "Title" (Node "Title" PyNone [])
                eq_refl eq_refl eq_refl eq_refl).
  vm_compute in Hclaim. discriminate Hclaim.
Qed.

Example empty_title_record :
  dict_get (make_record empty_title) "Title" = Ok PyNone
  ∧ dict_get (make_record bare_transaction) "Title" = Ok (PyStr "").
Proof. split; reflexivity. Qed.

Lemma present_empty_field_is_None_witness :
  field_tags !! 11 = Some "Title"
  ∧ headers !! 11 = Some "Title"
  ∧ find "Title" empty_title = Some (Node "Title" PyNone [])
  ∧ text (Node "Title" PyNone []) = PyNone
  ∧ make_record empty_title !! 11 = Some ("Title", PyNone)
  ∧ dict_get (make_record empty_title) "Title" = Ok PyNone
  ∧ dict_get (make_record empty_title) "Title" ≠ Ok (PyStr "").
Proof.
  do 4 (split; [reflexivity|]).
  apply (present_empty_field_is_None empty_title 11 "Title" "Title"
           (Node "Title" PyNone [])); reflexivity.
Defined.

Lemma column_width_formula_witness :
  parse_xml_to_excel sample_parse sample_save (Ok sample_tree)
    = (Some sample_buffer, "Success", 2)
  ∧ ∃ wb, getvalue sample_buffer = sample_save wb
      ∧ length (columns (active wb)) = 19.
Proof.
  assert (Hret : parse_xml_to_excel sample_parse sample_save (Ok sample_tree)
                 = (Some sample_buffer, "Success", 2))
    by reflexivity.
  split; [exact Hret|].
  destruct (column_width_formula sample_parse sample_save _ _ _ _ Hret)
    as (wb & Hbuf & Hlen & _).
  exists wb. split; [exact Hbuf|exact Hlen].
Defined.

Lemma no_transactions_NoData_witness :
  sample_parse (Ok archive_tree) = Ok archive_tree
  ∧ length (findall "Transaction" (getroot archive_tree)) = 0
  ∧ parse_xml_to_excel sample_parse sample_save (Ok archive_tree)
    = (None, "No transaction data found in XML file", 0).
Proof.
  split; [reflexivity|]. split; [reflexivity|].
  apply (no_transactions_NoData sample_parse sample_save
           (Ok archive_tree) archive_tree); reflexivity.
Defined.

(** C5, as the specification states it, fails: the document behind
    [unknown_encoding] is not well-formed, yet the parser raises
    [LookupError], not [ParseError], and the second handler answers with
    the generic message. *)
Lemma unknown_encoding_is_not_invalid_xml :
  sample_parse unknown_encoding = Raise (LookupError "unknown encoding: bogus")
  ∧ parse_xml_to_excel sample_parse sample_save unknown_encoding
    = (None, "Error processing file: unknown encoding: bogus", 0)
  ∧ ∀ detail,
      parse_xml_to_excel sample_parse sample_save unknown_encoding
      ≠ (None, "Invalid XML file: " +:+ detail, 0).
Proof.
  split; [reflexivity|]. split; [reflexivity|]. intros detail [=].
Qed.

Lemma status_contract_witness :
  sample_parse (Raise (ParseError sample_detail))
    = Raise (ParseError sample_detail)
  ∧ parse_xml_to_excel sample_parse sample_save
      (Raise (ParseError sample_detail))
    = (None, "Invalid XML file: " +:+ sample_detail, 0).
Proof.
  split; [reflexivity|].
  apply (status_contract sample_parse sample_save
           (Raise (ParseError sample_detail))).
  reflexivity.
Defined.

Lemma absent_field_empty_string_witness :
  field_tags !! 14 = Some "PubYear"
  ∧ headers !! 14 = Some "Publication Year"
  ∧ Forall (λ e, tag e ≠ "PubYear") scenario_fields
  ∧ dict_get (make_record (Node "Transaction" PyNone scenario_fields))
      "Publication Year" = Ok (PyStr "").
Proof.
  assert (Habs : Forall (λ e, tag e ≠ "PubYear") scenario_fields)
    by (apply (bool_decide_unpack _); vm_compute; exact I).
  split; [reflexivity|]. split; [reflexivity|]. split; [exact Habs|].
  apply (absent_field_empty_string
           (Node "Transaction" PyNone scenario_fields) 14
           "PubYear" "Publication Year");
    [reflexivity|reflexivity|].
  intros e He. exact (proj1 (Forall_forall _ _) Habs e He).
Defined.

Lemma findall_direct_children_witness :
  tag (Node "Archive" PyNone [Node "Transaction" PyNone scenario_fields])
    ≠ "Transaction"
  ∧ length (extract_rows sample_root) = 2
  ∧ extract_rows sample_root
    = extract_rows
        (Node "Transactions" PyNone
           [Node "Transaction" PyNone scenario_fields; empty_title]).
Proof.
  assert (Htag : tag (Node "Archive" PyNone
                        [Node "Transaction" PyNone scenario_fields])
                 ≠ "Transaction") by (intros [=]).
  split; [exact Htag|].
  destruct (findall_direct_children sample_root) as (_ & Hlen & Hdrop).
  split; [exact Hlen|].
  exact (Hdrop [Node "Transaction" PyNone scenario_fields] _ [empty_title]
           eq_refl Htag).
Defined.

(** C9, as the specification states it, fails: with 1048576 direct
    [Transaction] children the last record belongs in row 1048577, which
    the sheet refuses, and the call returns the generic error. *)
Lemma crowded_sheet_is_refused :
  sample_parse (Ok crowded_tree) = Ok crowded_tree
  ∧ length (findall "Transaction" (getroot crowded_tree)) = MAX_ROW
  ∧ N.of_nat MAX_ROW = 1048576%N
  ∧ xml_characters (getroot crowded_tree) = true
  ∧ parse_xml_to_excel sample_parse sample_save (Ok crowded_tree)
    = (None,
       "Error processing file: Row numbers must be between 1 and 1048576. "
       +:+ "Row number supplied was 1048577", 0).
Proof.
  split; [reflexivity|]. split; [exact crowded_tree_length|].
  split; [exact MAX_ROW_eq|]. split; [exact crowded_tree_xml|].
  apply (parse_overflow sample_parse sample_save (Ok crowded_tree)
           crowded_tree).
  - reflexivity.
  - by rewrite crowded_tree_length.
  - exact crowded_tree_xml.
Qed.

Lemma table_writer_never_fails_witness :
  sample_parse (Ok sample_tree) = Ok sample_tree
  ∧ 1 ≤ length (findall "Transaction" (getroot sample_tree))
  ∧ length (findall "Transaction" (getroot sample_tree)) + 1 ≤ MAX_ROW
  ∧ xml_characters (getroot sample_tree) = true
  ∧ ∃ buf, parse_xml_to_excel sample_parse sample_save (Ok sample_tree)
           = (Some buf, "Success", 2)
      ∧ tell buf = 0.
Proof.
  split; [reflexivity|]. split; [vm_compute; lia|].
  split; [exact sample_tree_fits|]. split; [reflexivity|].
  destruct (table_writer_never_fails sample_parse sample_save
              (Ok sample_tree) sample_tree)
    as [(wb & buf & _ & Hret & _ & Htell) _].
  - reflexivity.
  - vm_compute. lia.
  - exact sample_tree_fits.
  - reflexivity.
  - exists buf. split; [exact Hret|exact Htell].
Defined.

Lemma column_width_bounds_witness :
  parse_xml_to_excel sample_parse sample_save (Ok sample_tree)
    = (Some sample_buffer, "Success", 2)
  ∧ ∃ wb, getvalue sample_buffer = sample_save wb
      ∧ ∀ l w, column_dimensions (active wb) !! l = Some w → 6 ≤ w ≤ 50.
Proof.
  assert (Hret : parse_xml_to_excel sample_parse sample_save (Ok sample_tree)
                 = (Some sample_buffer, "Success", 2))
    by reflexivity.
  split; [exact Hret|].
  destruct (column_width_bounds sample_parse sample_save _ _ _ _ Hret)
    as (wb & Hbuf & _ & Hall).
  exists wb. split; [exact Hbuf|exact Hall].
Defined.

(** The two widths the specification gives for the "Title" column: a
    55-character title is capped at 50, a 10-character one gives 12. A cell
    without a value under "Date" leaves the width at 4 + 2. *)
Example title_width_capped :
  col_width
    [ header_cell 12 "Title";
      data_cell 2 12
        (PyStr "The Long and Winding Tale of the Overdue Library Books!") ]
  = 50.
Proof. reflexivity. Qed.

Example title_width_short :
  col_width [header_cell 12 "Title"; data_cell 2 12 (PyStr "Moby-Dick!")] = 12.
Proof. reflexivity. Qed.

Example date_width_without_value :
  col_width [header_cell 2 "Date"; data_cell 2 2 PyNone] = 6.
Proof. reflexivity. Qed.

(** * The further properties on the sample documents *)

Lemma header_row_styled_witness :
  parse_xml_to_excel sample_parse sample_save (Ok sample_tree)
    = (Some sample_buffer, "Success", 2)
  ∧ ∃ wb, getvalue sample_buffer = sample_save wb
      ∧ title (active wb) = "Transactions".
Proof.
  assert (Hret : parse_xml_to_excel sample_parse sample_save (Ok sample_tree)
                 = (Some sample_buffer, "Success", 2))
    by reflexivity.
  split; [exact Hret|].
  destruct (header_row_styled sample_parse sample_save _ _ _ _ Hret)
    as (wb & Hbuf & Htitle & _).
  exists wb. split; [exact Hbuf|exact Htitle].
Defined.

Lemma first_field_element_wins_witness :
  field_tags !! 11 = Some "Title"
  ∧ headers !! 11 = Some "Title"
  ∧ children double_title
    = [leaf "Date" "2024-01-15"] ++ leaf "Title" "First"
      :: [leaf "Title" "Second"]
  ∧ Forall (λ b, tag b ≠ "Title") [leaf "Date" "2024-01-15"]
  ∧ dict_get (make_record double_title) "Title" = Ok (PyStr "First").
Proof.
  assert (Hbefore : Forall (λ b, tag b ≠ "Title") [leaf "Date" "2024-01-15"])
    by (apply (bool_decide_unpack _); vm_compute; exact I).
  split; [reflexivity|]. split; [reflexivity|]. split; [reflexivity|].
  split; [exact Hbefore|].
  apply (first_field_element_wins double_title 11 "Title" "Title"
           [leaf "Date" "2024-01-15"] (leaf "Title" "First")
           [leaf "Title" "Second"]);
    [reflexivity|reflexivity|reflexivity|reflexivity|].
  intros b Hb. exact (proj1 (Forall_forall _ _) Hbefore b Hb).
Defined.

Lemma unknown_child_ignored_witness :
  (tag note ∉ field_tags)
  ∧ make_record (Node "Transaction" PyNone
                   ([leaf "Date" "2024-01-15"] ++ note
                    :: [leaf "Title" "First"]))
    = make_record (Node "Transaction" PyNone
                     ([leaf "Date" "2024-01-15"] ++ [leaf "Title" "First"])).
Proof.
  assert (Hnote : tag note ∉ field_tags)
    by (apply (bool_decide_unpack _); vm_compute; exact I).
  split; [exact Hnote|].
  exact (unknown_child_ignored "Transaction" PyNone
           [leaf "Date" "2024-01-15"] note [leaf "Title" "First"] Hnote).
Defined.

Lemma buffer_means_success_witness :
  parse_xml_to_excel sample_parse sample_save (Ok sample_tree)
    = (Some sample_buffer, "Success", 2)
  ∧ tell sample_buffer = 0 ∧ 1 ≤ 2.
Proof.
  assert (Hret : parse_xml_to_excel sample_parse sample_save (Ok sample_tree)
                 = (Some sample_buffer, "Success", 2))
    by reflexivity.
  split; [exact Hret|].
  destruct (buffer_means_success sample_parse sample_save _ _ _ _ Hret)
    as (_ & Htell & Hn & _).
  split; [exact Htell|exact Hn].
Defined.

Lemma status_by_parser_outcome_witness :
  (∀ tree, sample_parse (Ok sample_tree) = Ok tree →
     xml_characters (getroot tree) = true)
  ∧ has_kind (parse_xml_to_excel sample_parse sample_save (Ok sample_tree))
      Success
  ∧ ¬ has_kind (parse_xml_to_excel sample_parse sample_save (Ok sample_tree))
        ProcessingError.
Proof.
  assert (Hxml : ∀ tree, sample_parse (Ok sample_tree) = Ok tree →
                   xml_characters (getroot tree) = true)
    by (intros tree [= <-]; reflexivity).
  split; [exact Hxml|].
  destruct (status_by_parser_outcome sample_parse sample_save
              (Ok sample_tree) Hxml) as (Hsuccess & _ & _ & Herror).
  split.
  - apply Hsuccess. exists sample_tree. split; [reflexivity|].
    split; [vm_compute; lia|exact sample_tree_fits].
  - intros [[e [[=] _]]|[tree [[= <-] Hn]]]%Herror.
    pose proof sample_tree_fits. lia.
Defined.

Lemma sample_now_valid : valid_datetime sample_now.
Proof.
  unfold valid_datetime. apply (bool_decide_unpack _). vm_compute. exact I.
Defined.


Lemma timestamp_shape_witness :
  valid_datetime sample_now
  ∧ strftime "%Y%m%d_%H%M%S" sample_now = "20240115_103005"
  ∧ String.length (strftime "%Y%m%d_%H%M%S" sample_now) = 15.
Proof.
  split; [exact sample_now_valid|].
  destruct (timestamp_shape sample_now sample_now_valid) as [_ Hlen].
  split; [reflexivity|exact Hlen].
Defined.


Lemma main_offers_download_witness :
  sample_parse (Ok sample_tree) = Ok sample_tree
  ∧ 1 ≤ length (findall "Transaction" (getroot sample_tree))
  ∧ length (findall "Transaction" (getroot sample_tree)) + 1 ≤ MAX_ROW
  ∧ xml_characters (getroot sample_tree) = true
  ∧ ∃ wb, main sample_parse sample_save sample_name sample_size sample_kb
            (Some (Ok sample_tree)) true sample_now
          = Ok (page_top ++ file_details "export.2024.xml" "2.00"
                ++ [ st_spinner "Processing your file...";
                     st_markdown (success_box 2) true;
                     st_download_button "📥 Download Excel File"
                       {| getvalue := sample_save wb; tell := 0 |}
                       "export.2024_transactions_20240115_103005.xlsx"
                       xlsx_mime "primary";
                     st_balloons ]
                ++ page_bottom).
Proof.
  split; [reflexivity|]. split; [vm_compute; lia|].
  split; [exact sample_tree_fits|]. split; [reflexivity|].
  destruct (main_offers_download sample_parse sample_save sample_name
              sample_size sample_kb (Ok sample_tree) sample_tree sample_now)
    as (wb & original & _ & Horig & Hmain).
  - reflexivity.
  - vm_compute. lia.
  - exact sample_tree_fits.
  - reflexivity.
  - exists wb. injection Horig as <-. exact Hmain.
Defined.

Lemma main_reports_failure_witness :
  parse_xml_to_excel sample_parse sample_save (Ok archive_tree)
    = (None, "No transaction data found in XML file", 0)
  ∧ main sample_parse sample_save sample_name sample_size sample_kb
      (Some (Ok archive_tree)) true sample_now
    = Ok (page_top ++ file_details "export.2024.xml" "2.00"
          ++ [ st_spinner "Processing your file...";
               st_error "❌ No transaction data found in XML file" ]
          ++ page_bottom).
Proof.
  split; [reflexivity|].
  apply (main_reports_failure sample_parse sample_save sample_name
           sample_size sample_kb (Ok archive_tree) sample_now
           "No transaction data found in XML file" 0).
  reflexivity.
Defined.

Lemma results_only_on_click_witness :
  (∀ f tree, Some (Ok sample_tree) = Some f → sample_parse f = Ok tree →
     xml_characters (getroot tree) = true)
  ∧ ∃ page, main sample_parse sample_save sample_name sample_size sample_kb
              (Some (Ok sample_tree)) true sample_now = Ok page
      ∧ ∃ el, el ∈ page ∧ is_download_button el.
Proof.
  assert (Hxml : ∀ f tree, Some (Ok sample_tree) = Some f →
                   sample_parse f = Ok tree →
                   xml_characters (getroot tree) = true)
    by (intros f tree [= <-] [= <-]; reflexivity).
  split; [exact Hxml|].
  destruct (results_only_on_click sample_parse sample_save sample_name
              sample_size sample_kb (Some (Ok sample_tree)) true sample_now
              Hxml) as (page & Hmain & Hdownload & _).
  exists page. split; [exact Hmain|].
  apply Hdownload. exists (Ok sample_tree), sample_tree.
  split; [reflexivity|]. split; [reflexivity|]. split; [reflexivity|].
  split; [vm_compute; lia|exact sample_tree_fits].
Defined.
